(** * Webhook example triggers of the Stripe CLI (pkg/requests/examples.go)

    A shallow embedding of the scenario engine: every trigger of the Go file
    is a state-passing program over the outside world reached through
    [Base.MakeRequest], instrumented with the list of requests it issued and
    with what the trigger itself wrote to standard output. *)

From Stdlib Require Import Strings.String Strings.Ascii Strings.Byte List Bool Arith Lia.
From stdpp Require Import base strings gmap list.

Local Open Scope string_scope.

(** ** Go values that cross the file's boundary *)

(** Go [error] values, by the library that builds them. *)
Inductive error : Type :=
| ErrorString (s : string)          (* errors.New and fmt.Errorf *)
| SyntaxError (msg : string)        (* *json.SyntaxError: the body is not JSON *)
| UnmarshalTypeError (msg : string) (* *json.UnmarshalTypeError *)
| RegexpError (code expr : string)  (* *syntax.Error of package regexp *)
| OtherError (msg : string).        (* net, url, io: whatever the transport reports *)

(** An [interface{}] held in a decoded response.  Only two shapes are told
    apart by this file: the nil interface (a JSON null, or the result of
    indexing a map at an absent key) and a Go string.  Every other decoded
    value (float64, bool, slice, map) is kept as the text that the verb %s
    prints for it, for instance %!s(float64=42). *)
Inductive value : Type :=
| VNil
| VString (s : string)
| VOther (shown : string).

(** Indexing a Go map at an absent key yields the zero value of the element
    type, which for [interface{}] is nil: [m !!! k] is Go's [m[k]]. *)
#[global] Instance value_inhabited : Inhabited value := populate VNil.

(** The two-result form [v, ok := m[k]]. *)
Definition index_ok (m : gmap string value) (k : string) : value * bool :=
  match m !! k with
  | Some v => (v, true)
  | None => (VNil, false)
  end.

(** What fmt prints for one operand under the verb %s. *)
Definition verb_s (v : value) : string :=
  match v with
  | VNil => "%!s(<nil>)"
  | VString s => s
  | VOther shown => shown
  end.

(** fmt.Sprintf on the formats of this file: plain text and the verb %s, one
    operand per verb.  A verb with no operand left prints %!s(MISSING) as in
    Go; every call below passes exactly as many operands as verbs, so
    operands are never left over. *)
Fixpoint Sprintf (format : string) (a : list value) : string :=
  match format with
  | EmptyString => EmptyString
  | String "%" (String "s" rest) =>
      match a with
      | v :: a' => verb_s v +:+ Sprintf rest a'
      | [] => "%!s(MISSING)" +:+ Sprintf rest []
      end
  | String c rest => String c (Sprintf rest a)
  end.

(** fmt.Errorf without %w is errors.New of the formatted text. *)
Definition errors_New (s : string) : error := ErrorString s.
Definition Errorf (format : string) (a : list value) : error :=
  errors_New (Sprintf format a).

(** net/http method names. *)
Definition http_MethodGet : string := "GET".
Definition http_MethodPost : string := "POST".
Definition http_MethodDelete : string := "DELETE".

Definition validToken : string := "tok_visa".
Definition declinedToken : string := "tok_chargeDeclined".
Definition disputeToken : string := "tok_createDisputeInquiry".
Definition chargeFailedToken : string := "tok_chargeCustomerFail".

(** WebhookEndpoint contains the data for each webhook endpoint. *)
Record WebhookEndpoint : Type := {
  Application : string;
  EnabledEvents : list string;
  URL : string
}.

(** WebhookEndpointList contains the list of webhook endpoints. *)
Record WebhookEndpointList : Type := {
  Data : list WebhookEndpoint
}.

(** The zero value [WebhookEndpointList{}]: a nil slice. *)
Definition WebhookEndpointList_zero : WebhookEndpointList := {| Data := [] |}.

(** RequestParameters, with the two fields this file sets. *)
Record RequestParameters : Type := {
  data : list string;
  version : string
}.

(** ** Package regexp, as far as [ResendEvent] reaches it

    The syntax tree of regexp/syntax for the operators the event-id pattern
    uses.  Text is matched byte by byte: the only classes are ranges of
    ASCII letters and digits, which no byte of a multi-byte rune belongs
    to. *)
Inductive Regexp : Type :=
| OpEmptyMatch
| OpLiteral (c : ascii)
| OpCharClass (ranges : list (ascii * ascii))
| OpBeginText
| OpEndText
| OpRepeat (min max : nat) (sub : Regexp)
| OpConcat (sub1 sub2 : Regexp).

Definition between (lo hi c : ascii) : bool :=
  Nat.leb (nat_of_ascii lo) (nat_of_ascii c)
  && Nat.leb (nat_of_ascii c) (nat_of_ascii hi).

Definition is_digit (c : ascii) : bool := between "0" "9" c.

Definition is_alnum (c : ascii) : bool :=
  between "A" "Z" c || between "a" "z" c || between "0" "9" c.

Definition in_class (ranges : list (ascii * ascii)) (c : ascii) : bool :=
  existsb (fun r => between (fst r) (snd r) c) ranges.

(** The items of a bracket expression up to its closing bracket: single
    letters or digits and ranges of them with ordered ends. *)
Fixpoint parse_class (s : string) : option (list (ascii * ascii) * string) :=
  match s with
  | String "]" rest => Some ([], rest)
  | String lo (String "-" (String hi rest)) =>
      if is_alnum lo && is_alnum hi && Nat.leb (nat_of_ascii lo) (nat_of_ascii hi)
      then match parse_class rest with
           | Some (rs, rest') => Some ((lo, hi) :: rs, rest')
           | None => None
           end
      else None
  | String c rest =>
      if is_alnum c
      then match parse_class rest with
           | Some (rs, rest') => Some ((c, c) :: rs, rest')
           | None => None
           end
      else None
  | EmptyString => None
  end.

(** The digits at the head of [s], read in base ten onto [acc]. *)
Fixpoint parse_digits (s : string) (acc : nat) : nat * string :=
  match s with
  | String c rest =>
      if is_digit c
      then parse_digits rest (10 * acc + (nat_of_ascii c - nat_of_ascii "0"))
      else (acc, s)
  | EmptyString => (acc, s)
  end.

(** parseInt of regexp/syntax: at least one digit, no leading zero. *)
Definition parseInt (s : string) : option (nat * string) :=
  match s with
  | String c rest =>
      if negb (is_digit c) then None
      else match rest with
           | String c' _ =>
               if Ascii.eqb c "0" && is_digit c' then None
               else Some (parse_digits s 0)
           | EmptyString => Some (parse_digits s 0)
           end
  | EmptyString => None
  end.

(** parseRepeat on the form {min,max}, the text after the opening brace
    being given. *)
Definition parseRepeat (s : string) : option (nat * nat * string) :=
  match parseInt s with
  | Some (min, String "," s1) =>
      match parseInt s1 with
      | Some (max, String "}" rest) => Some (min, max, rest)
      | _ => None
      end
  | _ => None
  end.

Definition ErrInvalidRepeatSize : string := "invalid repeat count".
Definition ErrOutsideFragment : string := "outside the modelled fragment".

(** syntax.Parse under the Perl flags, for the fragment made of ^, $,
    letters, digits and underscore taken literally, bracket expressions as
    above, and a counted repetition {min,max} after a literal or a bracket
    expression.  Everything else is answered with an error.  Agreement
    with Go is meant for the pattern of [ResendEvent], the only one the file
    compiles. *)
Fixpoint parse (fuel : nat) (whole s : string) : error + list Regexp :=
  match fuel with
  | O => match s with
         | EmptyString => inr []
         | _ => inl (RegexpError ErrOutsideFragment whole)
         end
  | S fuel' =>
      let repeated (atom : Regexp) (rest : string) :=
        match rest with
        | String "{" rest' =>
            match parseRepeat rest' with
            | Some (min, max, rest'') =>
                if Nat.ltb 1000 min || Nat.ltb 1000 max || Nat.ltb max min
                then inl (RegexpError ErrInvalidRepeatSize whole)
                else match parse fuel' whole rest'' with
                     | inr atoms => inr (OpRepeat min max atom :: atoms)
                     | inl e => inl e
                     end
            | None => inl (RegexpError ErrOutsideFragment whole)
            end
        | _ =>
            match parse fuel' whole rest with
            | inr atoms => inr (atom :: atoms)
            | inl e => inl e
            end
        end in
      match s with
      | EmptyString => inr []
      | String "^" rest =>
          match parse fuel' whole rest with
          | inr atoms => inr (OpBeginText :: atoms)
          | inl e => inl e
          end
      | String "$" rest =>
          match parse fuel' whole rest with
          | inr atoms => inr (OpEndText :: atoms)
          | inl e => inl e
          end
      | String "[" rest =>
          match parse_class rest with
          | Some (ranges, rest') => repeated (OpCharClass ranges) rest'
          | None => inl (RegexpError ErrOutsideFragment whole)
          end
      | String c rest =>
          if is_alnum c || Ascii.eqb c "_"
          then repeated (OpLiteral c) rest
          else inl (RegexpError ErrOutsideFragment whole)
      end
  end.

(** regexp.Compile. *)
Definition regexp_Compile (expr : string) : error + Regexp :=
  match parse (String.length expr) expr expr with
  | inr atoms => inr (fold_right OpConcat OpEmptyMatch atoms)
  | inl e => inl e
  end.

(** A place in the text: the offset reached and what is left to read. *)
Definition place : Type := nat * string.

(** [sub] from zero to [n] times, then [k]. *)
Fixpoint repeat_upto (sub : (place -> bool) -> place -> bool) (n : nat)
    (k : place -> bool) (p : place) : bool :=
  k p ||
  match n with
  | O => false
  | S n' => sub (repeat_upto sub n' k) p
  end.

(** [sub] exactly [n] times, then [k]. *)
Fixpoint repeat_exactly (sub : (place -> bool) -> place -> bool) (n : nat)
    (k : place -> bool) (p : place) : bool :=
  match n with
  | O => k p
  | S n' => sub (repeat_exactly sub n' k) p
  end.

(** Whether [re] matches at place [p] with the rest of the match accepted by
    the continuation [k]. *)
Fixpoint match_at (re : Regexp) (k : place -> bool) (p : place) : bool :=
  match re with
  | OpEmptyMatch => k p
  | OpLiteral c =>
      match snd p with
      | String c' rest => Ascii.eqb c c' && k (S (fst p), rest)
      | EmptyString => false
      end
  | OpCharClass ranges =>
      match snd p with
      | String c' rest => in_class ranges c' && k (S (fst p), rest)
      | EmptyString => false
      end
  | OpBeginText => Nat.eqb (fst p) 0 && k p
  | OpEndText =>
      match snd p with
      | EmptyString => k p
      | String _ _ => false
      end
  | OpRepeat min max sub =>
      repeat_exactly (match_at sub) min
        (repeat_upto (match_at sub) (max - min) k) p
  | OpConcat sub1 sub2 => match_at sub1 (match_at sub2 k) p
  end.

(** An unanchored search: a match starting at this offset or a later one. *)
Fixpoint search (re : Regexp) (offset : nat) (s : string) : bool :=
  match_at re (fun _ => true) (offset, s) ||
  match s with
  | String _ rest => search re (S offset) rest
  | EmptyString => false
  end.

Definition Regexp_MatchString (re : Regexp) (s : string) : bool :=
  search re 0 s.

(** regexp.MatchString(pattern, s). *)
Definition regexp_MatchString (pattern s : string) : bool * option error :=
  match regexp_Compile pattern with
  | inl e => (false, Some e)
  | inr re => (Regexp_MatchString re s, None)
  end.

(** The event-id format in words: the prefix evt_ followed by 3 to 255
    ASCII letters or digits, and nothing else. *)
Definition event_id_well_formed (id : string) : bool :=
  match id with
  | String "e" (String "v" (String "t" (String "_" rest))) =>
      forallb is_alnum (list_ascii_of_string rest)
      && Nat.leb 3 (String.length rest) && Nat.leb (String.length rest) 255
  | _ => false
  end.

(** The names of the triggers, one per exported method that takes no
    argument and returns an error. *)
Inductive trigger : Type :=
| T_ChargeCaptured | T_ChargeDisputed | T_ChargeFailed | T_ChargeRefunded
| T_ChargeSucceeded | T_CheckoutSessionCompleted | T_CustomerCreated
| T_CustomerUpdated | T_CustomerDeleted | T_CustomerSourceCreated
| T_CustomerSourceUpdated | T_CustomerSubscriptionUpdated
| T_CustomerSubscriptionDeleted | T_InvoiceCreated | T_InvoiceFinalized
| T_InvoicePaymentSucceeded | T_InvoicePaymentFailed | T_InvoiceUpdated
| T_PaymentIntentCreated | T_PaymentIntentSucceeded | T_PaymentIntentFailed
| T_PaymentMethodAttached.

(** The number of requests of a trigger's plan when every step succeeds. *)
Definition steps (t : trigger) : nat :=
  match t with
  | T_ChargeDisputed | T_ChargeFailed | T_ChargeSucceeded
  | T_CustomerCreated | T_PaymentIntentCreated => 1
  | T_ChargeCaptured | T_ChargeRefunded | T_CustomerUpdated
  | T_CustomerDeleted | T_CustomerSourceCreated
  | T_PaymentIntentSucceeded | T_PaymentIntentFailed => 2
  | T_CustomerSourceUpdated | T_InvoiceCreated | T_PaymentMethodAttached => 3
  | T_CheckoutSessionCompleted | T_CustomerSubscriptionUpdated
  | T_CustomerSubscriptionDeleted | T_InvoiceFinalized
  | T_InvoicePaymentSucceeded | T_InvoicePaymentFailed | T_InvoiceUpdated => 4
  end.

(** The requests of each trigger when every step succeeds, as a table:
    method, path and parameters of each request in order, [id i] standing
    for what indexing the decoded response of request [i] at "id" gave. *)
Definition plan (t : trigger) (ids : list value)
  : list (string * string * list string) :=
  let id i := verb_s (nth i ids VNil) in
  let charge (token : string) (extra : list string) :=
    ("POST", "/v1/charges",
     (["amount=2000"; "currency=usd"] ++ extra ++ ["source=" +:+ token])%list) in
  let customer (params : list string) := ("POST", "/v1/customers", params) in
  let invoiceitem :=
    ("POST", "/v1/invoiceitems",
     ["currency=usd"; "customer=" +:+ id 0; "amount=2000"]) in
  let invoice := ("POST", "/v1/invoices", ["customer=" +:+ id 0]) in
  let plan_ :=
    ("POST", "/v1/plans",
     ["currency=usd"; "interval=month"; "amount=2000";
      "product[name]=myproduct"]) in
  let subscription :=
    ("POST", "/v1/subscriptions",
     ["items[0][plan]=" +:+ id 1; "customer=" +:+ id 0]) in
  let payment_method (card : string) :=
    ("POST", "/v1/payment_methods",
     ["type=card"; "card[number]=" +:+ card; "card[exp_month]=12";
      "card[exp_year]=2020"; "card[cvc]=123"]) in
  let payment_intent (extra : list string) :=
    ("POST", "/v1/payment_intents",
     (["amount=2000"; "currency=usd"; "payment_method_types[]=card"]
      ++ extra)%list) in
  match t with
  | T_ChargeCaptured =>
      [charge "tok_visa" ["capture=false"];
       ("POST", "/v1/charges/" +:+ id 0 +:+ "/capture", [])]
  | T_ChargeDisputed => [charge "tok_createDisputeInquiry" []]
  | T_ChargeFailed => [charge "tok_chargeDeclined" []]
  | T_ChargeRefunded =>
      [charge "tok_visa" []; ("POST", "/v1/refunds", ["charge=" +:+ id 0])]
  | T_ChargeSucceeded => [charge "tok_visa" []]
  | T_CheckoutSessionCompleted =>
      [("POST", "/v1/checkout/sessions",
        ["success_url=https://httpbin.org/post";
         "cancel_url=https://httpbin.org/post";
         "payment_method_types[]=card";
         "line_items[][name]=T-shirt";
         "line_items[][description]=Comfortable cotton t-shirt";
         "line_items[][amount]=1500";
         "line_items[][currency]=usd";
         "line_items[][quantity]=2"]);
       ("GET", "/v1/payment_pages", ["session_id=" +:+ id 0]);
       ("POST", "/v1/payment_methods",
        ["type=card"; "card[token]=tok_visa";
         "billing_details[email]=stripe@example.com"]);
       ("POST", "/v1/payment_pages/" +:+ id 1 +:+ "/confirm",
        ["payment_method=" +:+ id 2])]
  | T_CustomerCreated => [customer []]
  | T_CustomerUpdated =>
      [customer [];
       ("POST", "/v1/customers/" +:+ id 0, ["metadata[foo]=bar"])]
  | T_CustomerDeleted =>
      [customer []; ("DELETE", "/v1/customers/" +:+ id 0, [])]
  | T_CustomerSourceCreated =>
      [customer [];
       ("POST", "/v1/customers/" +:+ id 0 +:+ "/sources", ["source=tok_visa"])]
  | T_CustomerSourceUpdated =>
      [customer [];
       ("POST", "/v1/customers/" +:+ id 0 +:+ "/sources", ["source=tok_visa"]);
       ("POST", "/v1/customers/" +:+ id 0 +:+ "/sources/" +:+ id 1,
        ["metadata[foo]=bar"])]
  | T_CustomerSubscriptionUpdated =>
      [customer ["source=tok_visa"]; plan_; subscription;
       ("POST", "/v1/subscriptions/" +:+ id 2, ["metadata[foo]=bar"])]
  | T_CustomerSubscriptionDeleted =>
      [customer ["source=tok_visa"]; plan_; subscription;
       ("DELETE", "/v1/subscriptions/" +:+ id 2, [])]
  | T_InvoiceCreated => [customer []; invoiceitem; invoice]
  | T_InvoiceFinalized =>
      [customer []; invoiceitem; invoice;
       ("POST", "/v1/invoices/" +:+ id 2 +:+ "/finalize", [])]
  | T_InvoicePaymentSucceeded =>
      [customer ["source=tok_visa"]; invoiceitem; invoice;
       ("POST", "/v1/invoices/" +:+ id 2 +:+ "/pay", [])]
  | T_InvoicePaymentFailed =>
      [customer ["source=tok_chargeCustomerFail"]; invoiceitem; invoice;
       ("POST", "/v1/invoices/" +:+ id 2 +:+ "/pay", [])]
  | T_InvoiceUpdated =>
      [customer []; invoiceitem; invoice;
       ("POST", "/v1/invoices/" +:+ id 2, ["metadata[foo]=bar"])]
  | T_PaymentIntentCreated => [payment_intent []]
  | T_PaymentIntentSucceeded =>
      [payment_method "4242424242424242";
       payment_intent ["confirm=true"; "payment_method=" +:+ id 0]]
  | T_PaymentIntentFailed =>
      [payment_method "4000000000000002";
       payment_intent ["confirm=true"; "payment_method=" +:+ id 0]]
  | T_PaymentMethodAttached =>
      [customer []; payment_method "4242424242424242";
       ("POST", "/v1/payment_methods/" +:+ id 1 +:+ "/attach",
        ["customer=" +:+ id 0])]
  end.

(** The pattern [ResendEvent] checks event ids against. *)
Definition event_pattern : string := "^evt_[A-Za-z0-9]{3,255}$".

(** Its bracket expression, and the tail of the pattern as a continuation:
    the end of the text. *)
Definition event_class : list (ascii * ascii) :=
  [("A", "Z"); ("a", "z"); ("0", "9")]%char.

Definition at_end : place -> bool :=
  match_at (OpConcat OpEndText OpEmptyMatch) (fun _ => true).

Section Engine.

(** [config.Profile] is declared elsewhere in the repository; the triggers
    only pass it along. *)
Context {config_Profile : Type}.

(** Base, with the four fields this file sets. *)
Record Base : Type := {
  Base_Profile : config_Profile;
  Method : string;
  SuppressOutput : bool;
  Base_APIBaseURL : string
}.

(** Examples stores possible webhook test events to trigger for the CLI. *)
Record Examples : Type := {
  Profile : config_Profile;
  APIBaseURL : string;
  APIVersion : string;
  APIKey : string
}.

(** The outside world (network, remote account) as seen through
    [Base.MakeRequest], which lives outside this file: from a request and
    the current world it yields the two Go results, body and error, and the
    next world. *)
Context {World : Type}.
Variable Base_MakeRequest :
  Base -> string -> string -> RequestParameters -> bool ->
  World -> (list byte * option error) * World.

(** json.Unmarshal into a nil [map[string]interface{}]: the map it leaves
    behind and its error. *)
Variable json_Unmarshal : list byte -> gmap string value * option error.

(** json.Unmarshal into a [WebhookEndpointList] holding the given value. *)
Variable json_Unmarshal_WebhookEndpointList :
  list byte -> WebhookEndpointList -> WebhookEndpointList * option error.

(** One request as it reached [Base.MakeRequest], with what came back. *)
Record Call : Type := {
  call_req : Base;
  call_apiKey : string;
  call_path : string;
  call_params : RequestParameters;
  call_errOnStatus : bool;
  call_resp : list byte;
  call_err : option error
}.

(** The state threaded through a trigger: the world, the requests issued so
    far (oldest first) and the lines the trigger itself printed. *)
Record State : Type := {
  world : World;
  calls : list Call;
  stdout : list string
}.

Definition init (w : World) : State :=
  {| world := w; calls := []; stdout := [] |}.

Definition M (A : Type) : Type := State -> A * State.

Definition ret {A} (a : A) : M A := fun st => (a, st).

Definition bind {A B} (m : M A) (k : A -> M B) : M B :=
  fun st => let '(a, st') := m st in k a st'.

Notation "'let*' pat ':=' m 'in' k" :=
  (bind m (fun x => match x with pat => k end))
  (at level 10, pat pattern, m at level 100, k at level 200, only parsing).

(** [req.MakeRequest(apiKey, path, params, errOnStatus)], recorded. *)
Definition MakeRequest (req : Base) (apiKey path : string)
    (params : RequestParameters) (errOnStatus : bool)
  : M (list byte * option error) :=
  fun st =>
    let '((resp, err), w') :=
      Base_MakeRequest req apiKey path params errOnStatus (world st) in
    ((resp, err),
     {| world := w';
        calls := calls st ++
          [{| call_req := req; call_apiKey := apiKey; call_path := path;
              call_params := params; call_errOnStatus := errOnStatus;
              call_resp := resp; call_err := err |}];
        stdout := stdout st |}).

(** [fmt.Println(s)]. *)
Definition Println (s : string) : M unit :=
  fun st =>
    (tt, {| world := world st; calls := calls st;
            stdout := stdout st ++ [s +:+ String "010" EmptyString] |}).

Definition parseResponse (response : list byte)
  : gmap string value * option error :=
  let '(result, err) := json_Unmarshal response in
  match err with
  | Some e => (∅, Some e)
  | None => (result, None)
  end.

Definition buildRequest (ex : Examples) (method : string) (data : list string)
  : Base * RequestParameters :=
  let params := {| data := data; version := APIVersion ex |} in
  let base := {| Base_Profile := Profile ex;
                 Method := method;
                 SuppressOutput := true;
                 Base_APIBaseURL := APIBaseURL ex |} in
  (base, params).

Definition performStripeRequest (ex : Examples) (req : Base)
    (endpoint : string) (params : RequestParameters)
  : M (gmap string value * option error) :=
  let* (resp, err) := MakeRequest req (APIKey ex) endpoint params true in
  match err with
  | Some e => ret (∅, Some e)
  | None => ret (parseResponse resp)
  end.

Definition chargeCreated (ex : Examples) (token : string) (data : list string)
  : M (gmap string value * option error) :=
  let paymentSource := Sprintf "source=%s" [VString token] in
  let '(req, params) := buildRequest ex http_MethodPost (data ++ [paymentSource]) in
  performStripeRequest ex req "/v1/charges" params.

(** ChargeCaptured first creates a charge that is not captured, then sends
    another request to specifically capture it. *)
Definition ChargeCaptured (ex : Examples) : M (option error) :=
  let* (charge, err) := chargeCreated ex validToken
      ["amount=2000"; "currency=usd"; "capture=false"] in
  match err with
  | Some e => ret (Some e)
  | None =>
      let '(req, params) := buildRequest ex http_MethodPost [] in
      let reqURL := Sprintf "/v1/charges/%s/capture" [charge !!! "id"] in
      let* (_, err) := performStripeRequest ex req reqURL params in
      ret err
  end.

(** ChargeDisputed creates a charge that becomes disputed. *)
Definition ChargeDisputed (ex : Examples) : M (option error) :=
  let* (_, err) := chargeCreated ex disputeToken
      ["amount=2000"; "currency=usd"] in
  ret err.

(** ChargeFailed fails to create a charge. *)
Definition ChargeFailed (ex : Examples) : M (option error) :=
  let* (_, err) := chargeCreated ex declinedToken
      ["amount=2000"; "currency=usd"] in
  ret err.

(** ChargeRefunded creates a charge, then refunds it. *)
Definition ChargeRefunded (ex : Examples) : M (option error) :=
  let* (charge, err) := chargeCreated ex validToken
      ["amount=2000"; "currency=usd"] in
  match err with
  | Some e => ret (Some e)
  | None =>
      let '(req, params) := buildRequest ex http_MethodPost
        [Sprintf "charge=%s" [charge !!! "id"]] in
      let* (_, err) := performStripeRequest ex req "/v1/refunds" params in
      ret err
  end.

(** ChargeSucceeded successfully creates a charge. *)
Definition ChargeSucceeded (ex : Examples) : M (option error) :=
  let* (_, err) := chargeCreated ex validToken
      ["amount=2000"; "currency=usd"] in
  ret err.

Definition paymentMethodCreated (ex : Examples) (card : string)
  : M (gmap string value * option error) :=
  let '(req, params) := buildRequest ex http_MethodPost
    ["type=card";
     Sprintf "card[number]=%s" [VString card];
     "card[exp_month]=12";
     "card[exp_year]=2020";
     "card[cvc]=123"] in
  performStripeRequest ex req "/v1/payment_methods" params.

Definition paymentMethodCreatedWithToken (ex : Examples) (token : string)
  : M (gmap string value * option error) :=
  let '(req, params) := buildRequest ex http_MethodPost
    ["type=card";
     Sprintf "card[token]=%s" [VString token];
     "billing_details[email]=stripe@example.com"] in
  performStripeRequest ex req "/v1/payment_methods" params.

(** CheckoutSessionCompleted creates and completes a Checkout session. *)
Definition CheckoutSessionCompleted (ex : Examples) : M (option error) :=
  let '(req, params) := buildRequest ex http_MethodPost
    ["success_url=https://httpbin.org/post";
     "cancel_url=https://httpbin.org/post";
     "payment_method_types[]=card";
     "line_items[][name]=T-shirt";
     "line_items[][description]=Comfortable cotton t-shirt";
     "line_items[][amount]=1500";
     "line_items[][currency]=usd";
     "line_items[][quantity]=2"] in
  let* (checkoutSession, err) :=
    performStripeRequest ex req "/v1/checkout/sessions" params in
  match err with
  | Some e => ret (Some e)
  | None =>
  let '(sessID, ok) := index_ok checkoutSession "id" in
  if negb ok then ret (Some (errors_New "Unable to retrieve CheckoutSession ID"))
  else
  (* Undocumented API GET /v1/payment_pages *)
  let '(req, params) := buildRequest ex http_MethodGet
    [Sprintf "session_id=%s" [sessID]] in
  let* (paymentPage, err) :=
    performStripeRequest ex req "/v1/payment_pages" params in
  match err with
  | Some e => ret (Some e)
  | None =>
  let '(paymentPageID, ok) := index_ok paymentPage "id" in
  if negb ok then ret (Some (errors_New "Unable to retrieve PaymentPage ID"))
  else
  let* (paymentMethod, err) := paymentMethodCreatedWithToken ex validToken in
  match err with
  | Some e => ret (Some e)
  | None =>
  let '(pmID, ok) := index_ok paymentMethod "id" in
  if negb ok then ret (Some (errors_New "Unable to retrieve PaymentMethod ID"))
  else
  (* Undocumented API POST /v1/payment_pages/<ID>/confirm *)
  let '(req, params) := buildRequest ex http_MethodPost
    [Sprintf "payment_method=%s" [pmID]] in
  let* (_, err) := performStripeRequest ex req
    (Sprintf "/v1/payment_pages/%s/confirm" [paymentPageID]) params in
  ret err
  end end end.

Definition customerCreated (ex : Examples) (data : list string)
  : M (gmap string value * option error) :=
  let '(req, params) := buildRequest ex http_MethodPost data in
  performStripeRequest ex req "/v1/customers" params.

(** CustomerCreated creates a new customer. *)
Definition CustomerCreated (ex : Examples) : M (option error) :=
  let* (_, err) := customerCreated ex [] in
  ret err.

(** CustomerUpdated creates a new customer and adds metadata to trigger an
    update event. *)
Definition CustomerUpdated (ex : Examples) : M (option error) :=
  let* (customer, err) := customerCreated ex [] in
  match err with
  | Some e => ret (Some e)
  | None =>
      let '(req, params) := buildRequest ex http_MethodPost
        ["metadata[foo]=bar"] in
      let reqURL := Sprintf "/v1/customers/%s" [customer !!! "id"] in
      let* (_, err) := performStripeRequest ex req reqURL params in
      ret err
  end.

(** CustomerDeleted creates a customer, then deletes it. *)
Definition CustomerDeleted (ex : Examples) : M (option error) :=
  let* (customer, err) := customerCreated ex [] in
  match err with
  | Some e => ret (Some e)
  | None =>
      let '(req, params) := buildRequest ex http_MethodDelete [] in
      let reqURL := Sprintf "/v1/customers/%s" [customer !!! "id"] in
      let* (_, err) := performStripeRequest ex req reqURL params in
      ret err
  end.

(** CustomerSourceCreated creates a customer and a token then attaches the
    card to the customer. *)
Definition CustomerSourceCreated (ex : Examples) : M (option error) :=
  let* (customer, err) := customerCreated ex [] in
  match err with
  | Some e => ret (Some e)
  | None =>
      let '(req, params) := buildRequest ex http_MethodPost
        [Sprintf "source=%s" [VString validToken]] in
      let reqURL := Sprintf "/v1/customers/%s/sources" [customer !!! "id"] in
      let* (_, err) := performStripeRequest ex req reqURL params in
      ret err
  end.

(** CustomerSourceUpdated creates a customer, adds a card, adds metadata to
    the card to trigger an update. *)
Definition CustomerSourceUpdated (ex : Examples) : M (option error) :=
  let* (customer, err) := customerCreated ex [] in
  match err with
  | Some e => ret (Some e)
  | None =>
  let '(req, params) := buildRequest ex http_MethodPost
    [Sprintf "source=%s" [VString validToken]] in
  let reqURL := Sprintf "/v1/customers/%s/sources" [customer !!! "id"] in
  let* (card, err) := performStripeRequest ex req reqURL params in
  match err with
  | Some e => ret (Some e)
  | None =>
  let '(req, params) := buildRequest ex http_MethodPost
    ["metadata[foo]=bar"] in
  let reqURL := Sprintf "/v1/customers/%s/sources/%s"
    [customer !!! "id"; card !!! "id"] in
  let* (_, err) := performStripeRequest ex req reqURL params in
  ret err
  end end.

(** CustomerSubscriptionUpdated creates a customer with a card, creates a
    plan, adds the customer to the plan, then updates the new subscription. *)
Definition CustomerSubscriptionUpdated (ex : Examples) : M (option error) :=
  let* (customer, err) := customerCreated ex
    [Sprintf "source=%s" [VString validToken]] in
  match err with
  | Some e => ret (Some e)
  | None =>
  let '(req, params) := buildRequest ex http_MethodPost
    ["currency=usd"; "interval=month"; "amount=2000";
     "product[name]=myproduct"] in
  let* (plan, err) := performStripeRequest ex req "/v1/plans" params in
  match err with
  | Some e => ret (Some e)
  | None =>
  let '(req, params) := buildRequest ex http_MethodPost
    [Sprintf "items[0][plan]=%s" [plan !!! "id"];
     Sprintf "customer=%s" [customer !!! "id"]] in
  let* (subscription, err) :=
    performStripeRequest ex req "/v1/subscriptions" params in
  match err with
  | Some e => ret (Some e)
  | None =>
  let '(req, params) := buildRequest ex http_MethodPost
    ["metadata[foo]=bar"] in
  let reqURL := Sprintf "/v1/subscriptions/%s" [subscription !!! "id"] in
  let* (_, err) := performStripeRequest ex req reqURL params in
  ret err
  end end end.

(** CustomerSubscriptionDeleted creates a customer with a card, creates a
    plan, adds the customer to the plan, then deletes it. *)
Definition CustomerSubscriptionDeleted (ex : Examples) : M (option error) :=
  let* (customer, err) := customerCreated ex
    [Sprintf "source=%s" [VString validToken]] in
  match err with
  | Some e => ret (Some e)
  | None =>
  let '(req, params) := buildRequest ex http_MethodPost
    ["currency=usd"; "interval=month"; "amount=2000";
     "product[name]=myproduct"] in
  let* (plan, err) := performStripeRequest ex req "/v1/plans" params in
  match err with
  | Some e => ret (Some e)
  | None =>
  let '(req, params) := buildRequest ex http_MethodPost
    [Sprintf "items[0][plan]=%s" [plan !!! "id"];
     Sprintf "customer=%s" [customer !!! "id"]] in
  let* (subscription, err) :=
    performStripeRequest ex req "/v1/subscriptions" params in
  match err with
  | Some e => ret (Some e)
  | None =>
  let '(req, params) := buildRequest ex http_MethodDelete [] in
  let reqURL := Sprintf "/v1/subscriptions/%s" [subscription !!! "id"] in
  let* (_, err) := performStripeRequest ex req reqURL params in
  ret err
  end end end.

Definition createInvoiceItem (ex : Examples) (data : list string)
  : M (gmap string value * option error) :=
  let '(req, params) := buildRequest ex http_MethodPost data in
  performStripeRequest ex req "/v1/invoiceitems" params.

Definition invoiceCreated (ex : Examples) (data : list string)
  : M (gmap string value * option error) :=
  let '(req, params) := buildRequest ex http_MethodPost data in
  performStripeRequest ex req "/v1/invoices" params.

(** InvoiceCreated first creates a customer, adds an invoice item, then
    creates an invoice. *)
Definition InvoiceCreated (ex : Examples) : M (option error) :=
  let* (customer, err) := customerCreated ex [] in
  match err with
  | Some e => ret (Some e)
  | None =>
  let* (_, err) := createInvoiceItem ex
    ["currency=usd";
     Sprintf "customer=%s" [customer !!! "id"];
     "amount=2000"] in
  match err with
  | Some e => ret (Some e)
  | None =>
  let* (_, err) := invoiceCreated ex
    [Sprintf "customer=%s" [customer !!! "id"]] in
  match err with
  | Some e => ret (Some e)
  | None => ret err
  end end end.

(** InvoiceFinalized first creates a customer, adds an invoice item, creates
    an invoice, and then finalizes the invoice. *)
Definition InvoiceFinalized (ex : Examples) : M (option error) :=
  let* (customer, err) := customerCreated ex [] in
  match err with
  | Some e => ret (Some e)
  | None =>
  let* (_, err) := createInvoiceItem ex
    ["currency=usd";
     Sprintf "customer=%s" [customer !!! "id"];
     "amount=2000"] in
  match err with
  | Some e => ret (Some e)
  | None =>
  let* (invoice, err) := invoiceCreated ex
    [Sprintf "customer=%s" [customer !!! "id"]] in
  match err with
  | Some e => ret (Some e)
  | None =>
  let '(req, params) := buildRequest ex http_MethodPost [] in
  let reqURL := Sprintf "/v1/invoices/%s/finalize" [invoice !!! "id"] in
  let* (_, err) := performStripeRequest ex req reqURL params in
  ret err
  end end end.

(** InvoicePaymentSucceeded first creates a customer, adds an invoice item,
    creates the invoice, and then pays the invoice. *)
Definition InvoicePaymentSucceeded (ex : Examples) : M (option error) :=
  let* (customer, err) := customerCreated ex
    [Sprintf "source=%s" [VString validToken]] in
  match err with
  | Some e => ret (Some e)
  | None =>
  let* (_, err) := createInvoiceItem ex
    ["currency=usd";
     Sprintf "customer=%s" [customer !!! "id"];
     "amount=2000"] in
  match err with
  | Some e => ret (Some e)
  | None =>
  let* (invoice, err) := invoiceCreated ex
    [Sprintf "customer=%s" [customer !!! "id"]] in
  match err with
  | Some e => ret (Some e)
  | None =>
  let '(req, params) := buildRequest ex http_MethodPost [] in
  let reqURL := Sprintf "/v1/invoices/%s/pay" [invoice !!! "id"] in
  let* (_, err) := performStripeRequest ex req reqURL params in
  ret err
  end end end.

(** InvoicePaymentFailed first creates a customer, adds an invoice item,
    creates the invoice, and then fails the payment. *)
Definition InvoicePaymentFailed (ex : Examples) : M (option error) :=
  let* (customer, err) := customerCreated ex
    [Sprintf "source=%s" [VString chargeFailedToken]] in
  match err with
  | Some e => ret (Some e)
  | None =>
  let* (_, err) := createInvoiceItem ex
    ["currency=usd";
     Sprintf "customer=%s" [customer !!! "id"];
     "amount=2000"] in
  match err with
  | Some e => ret (Some e)
  | None =>
  let* (invoice, err) := invoiceCreated ex
    [Sprintf "customer=%s" [customer !!! "id"]] in
  match err with
  | Some e => ret (Some e)
  | None =>
  let* _ := Println "hello" in
  let '(req, params) := buildRequest ex http_MethodPost [] in
  let reqURL := Sprintf "/v1/invoices/%s/pay" [invoice !!! "id"] in
  let* (_, err) := performStripeRequest ex req reqURL params in
  ret err
  end end end.

(** InvoiceUpdated first creates a customer, adds an invoice item, creates
    the invoice, then adds metadata to the invoice to trigger an update. *)
Definition InvoiceUpdated (ex : Examples) : M (option error) :=
  let* (customer, err) := customerCreated ex [] in
  match err with
  | Some e => ret (Some e)
  | None =>
  let* (_, err) := createInvoiceItem ex
    ["currency=usd";
     Sprintf "customer=%s" [customer !!! "id"];
     "amount=2000"] in
  match err with
  | Some e => ret (Some e)
  | None =>
  let* (invoice, err) := invoiceCreated ex
    [Sprintf "customer=%s" [customer !!! "id"]] in
  match err with
  | Some e => ret (Some e)
  | None =>
  let '(req, params) := buildRequest ex http_MethodPost
    ["metadata[foo]=bar"] in
  let reqURL := Sprintf "/v1/invoices/%s" [invoice !!! "id"] in
  let* (_, err) := performStripeRequest ex req reqURL params in
  ret err
  end end end.

Definition paymentIntentCreated (ex : Examples) (data : list string)
  : M (gmap string value * option error) :=
  let '(req, params) := buildRequest ex http_MethodPost data in
  performStripeRequest ex req "/v1/payment_intents" params.

(** PaymentIntentCreated creates a payment intent. *)
Definition PaymentIntentCreated (ex : Examples) : M (option error) :=
  let* (_, err) := paymentIntentCreated ex
    ["amount=2000"; "currency=usd"; "payment_method_types[]=card"] in
  ret err.

(** PaymentIntentSucceeded creates a successful payment intent. *)
Definition PaymentIntentSucceeded (ex : Examples) : M (option error) :=
  let* (paymentMethod, err) := paymentMethodCreated ex "4242424242424242" in
  match err with
  | Some e => ret (Some e)
  | None =>
      let paymentMethodID :=
        Sprintf "payment_method=%s" [paymentMethod !!! "id"] in
      let* (_, err) := paymentIntentCreated ex
        ["amount=2000"; "currency=usd"; "payment_method_types[]=card";
         "confirm=true"; paymentMethodID] in
      ret err
  end.

(** PaymentIntentFailed creates a failed payment intent. *)
Definition PaymentIntentFailed (ex : Examples) : M (option error) :=
  let* (paymentMethod, err) := paymentMethodCreated ex "4000000000000002" in
  match err with
  | Some e => ret (Some e)
  | None =>
      let* (_, err) := paymentIntentCreated ex
        ["amount=2000"; "currency=usd"; "payment_method_types[]=card";
         "confirm=true";
         Sprintf "payment_method=%s" [paymentMethod !!! "id"]] in
      ret err
  end.

(** PaymentMethodAttached creates a customer and payment method, then
    attaches the customer to the payment method. *)
Definition PaymentMethodAttached (ex : Examples) : M (option error) :=
  let* (customer, err) := customerCreated ex [] in
  match err with
  | Some e => ret (Some e)
  | None =>
  let* (paymentMethod, err) := paymentMethodCreated ex "4242424242424242" in
  match err with
  | Some e => ret (Some e)
  | None =>
  let '(req, params) := buildRequest ex http_MethodPost
    [Sprintf "customer=%s" [customer !!! "id"]] in
  let reqURL :=
    Sprintf "/v1/payment_methods/%s/attach" [paymentMethod !!! "id"] in
  let* (_, err) := performStripeRequest ex req reqURL params in
  ret err
  end end.

(** WebhookEndpointsList returns all the webhook endpoints on a users'
    account. *)
Definition WebhookEndpointsList (ex : Examples) : M WebhookEndpointList :=
  let params := {| version := APIVersion ex; data := ["limit=30"] |} in
  let base := {| Base_Profile := Profile ex;
                 Method := http_MethodGet;
                 SuppressOutput := true;
                 Base_APIBaseURL := APIBaseURL ex |} in
  let* (resp, _) :=
    MakeRequest base (APIKey ex) "/v1/webhook_endpoints" params true in
  let data := WebhookEndpointList_zero in
  let '(data, _) := json_Unmarshal_WebhookEndpointList resp data in
  ret data.

(** ResendEvent resends a webhook event using its event-id "evt_<id>". *)
Definition ResendEvent (ex : Examples) (id : string) : M (option error) :=
  let pattern := event_pattern in
  let '(match_, err) := regexp_MatchString pattern id in
  match err with
  | Some e => ret (Some e)
  | None =>
  if negb match_
  then ret (Some (Errorf
         "Invalid event-id provided, should be of the form '%s'"
         [VString pattern]))
  else
  let '(req, params) := buildRequest ex http_MethodPost [] in
  let reqURL := Sprintf "/v1/events/%s/retry" [VString id] in
  let* (_, err) := performStripeRequest ex req reqURL params in
  ret err
  end.

(** The method of the trigger named [t]. *)
Definition run (t : trigger) (ex : Examples) : M (option error) :=
  match t with
  | T_ChargeCaptured => ChargeCaptured ex
  | T_ChargeDisputed => ChargeDisputed ex
  | T_ChargeFailed => ChargeFailed ex
  | T_ChargeRefunded => ChargeRefunded ex
  | T_ChargeSucceeded => ChargeSucceeded ex
  | T_CheckoutSessionCompleted => CheckoutSessionCompleted ex
  | T_CustomerCreated => CustomerCreated ex
  | T_CustomerUpdated => CustomerUpdated ex
  | T_CustomerDeleted => CustomerDeleted ex
  | T_CustomerSourceCreated => CustomerSourceCreated ex
  | T_CustomerSourceUpdated => CustomerSourceUpdated ex
  | T_CustomerSubscriptionUpdated => CustomerSubscriptionUpdated ex
  | T_CustomerSubscriptionDeleted => CustomerSubscriptionDeleted ex
  | T_InvoiceCreated => InvoiceCreated ex
  | T_InvoiceFinalized => InvoiceFinalized ex
  | T_InvoicePaymentSucceeded => InvoicePaymentSucceeded ex
  | T_InvoicePaymentFailed => InvoicePaymentFailed ex
  | T_InvoiceUpdated => InvoiceUpdated ex
  | T_PaymentIntentCreated => PaymentIntentCreated ex
  | T_PaymentIntentSucceeded => PaymentIntentSucceeded ex
  | T_PaymentIntentFailed => PaymentIntentFailed ex
  | T_PaymentMethodAttached => PaymentMethodAttached ex
  end.

(** ** Vocabulary of the statements *)

(** How a step went wrong, if it did: the error of the request, else the
    error of decoding its body. *)
Definition step_failure (c : Call) : option error :=
  match call_err c with
  | Some e => Some e
  | None => snd (parseResponse (call_resp c))
  end.

(** Method, path and parameter list of a request. *)
Definition shape (c : Call) : string * string * list string :=
  (Method (call_req c), call_path c, data (call_params c)).

(** The world answers the next requests with [rs], in this order, whatever
    is asked: a scripted stand-in for the remote service. *)
Fixpoint answers (w : World) (rs : list (list byte * option error)) : Prop :=
  match rs with
  | [] => True
  | r :: rs' =>
      forall req apiKey path params errOnStatus,
        fst (Base_MakeRequest req apiKey path params errOnStatus w) = r /\
        answers (snd (Base_MakeRequest req apiKey path params errOnStatus w)) rs'
  end.

(** A failed request hands back no body, as Go functions returning
    [([]byte, error)] do. *)
Definition failure_has_no_body : Prop :=
  forall req apiKey path params errOnStatus w resp e w',
    Base_MakeRequest req apiKey path params errOnStatus w = ((resp, Some e), w') ->
    resp = [].

(** json.Unmarshal checks that its input is well-formed before it stores
    anything: on a syntax error the target keeps its value, and the empty
    input is a syntax error. *)
Definition malformed_leaves_target : Prop :=
  (forall b d d' msg,
     json_Unmarshal_WebhookEndpointList b d = (d', Some (SyntaxError msg)) ->
     d' = d) /\
  (forall d, exists msg,
     json_Unmarshal_WebhookEndpointList [] d = (d, Some (SyntaxError msg))).

(** What indexing the decoded body of a request at "id" gives. *)
Definition response_id (c : Call) : value :=
  fst (parseResponse (call_resp c)) !!! "id".

(** The request carries the profile, base URL, key and version of the
    receiver, asks for output suppression and for an error on a bad status. *)
Definition built_by (ex : Examples) (c : Call) : Prop :=
  Base_Profile (call_req c) = Profile ex /\
  Base_APIBaseURL (call_req c) = APIBaseURL ex /\
  SuppressOutput (call_req c) = true /\
  call_apiKey c = APIKey ex /\
  version (call_params c) = APIVersion ex /\
  call_errOnStatus c = true.

End Engine.

(** ** Stand-ins for the collaborators, to run the triggers on *)

(** A scripted service: the world is the list of answers still to give,
    each one a body or an error, given in turn whatever is asked. *)
Inductive canned : Type :=
| Body (b : list byte)
| Failure (e : error).

Definition scripted_MakeRequest {P : Type}
    (_ : @Base P) (_ _ : string) (_ : RequestParameters) (_ : bool)
    (w : list canned)
  : (list byte * option error) * list canned :=
  match w with
  | Body b :: w' => ((b, None), w')
  | Failure e :: w' => (([], Some e), w')
  | [] => (([], Some (OtherError "connection refused")), [])
  end.

Definition ok (body : string) : canned := Body (list_byte_of_string body).

Definition failed (msg : string) : canned := Failure (OtherError msg).


(** The double quote, and the two body shapes the examples use: the empty
    object and an object whose single member is the string id. *)
Definition quote : string := String "034" EmptyString.

Definition empty_object : string := "{}".

Definition object_with_id (id : string) : string :=
  "{" +:+ quote +:+ "id" +:+ quote +:+ ":" +:+ quote +:+ id +:+ quote +:+ "}".

Fixpoint strip_prefix (p s : string) : option string :=
  match p, s with
  | EmptyString, _ => Some s
  | String a p', String b s' =>
      if Ascii.eqb a b then strip_prefix p' s' else None
  | String _ _, EmptyString => None
  end.

(** The text up to the closing quote and brace that end the body, when it
    holds neither quote nor backslash. *)
Fixpoint id_until_close (s : string) : option string :=
  match s with
  | EmptyString => None
  | String c rest =>
      if Ascii.eqb c "034"
      then (if String.eqb rest "}" then Some EmptyString else None)
      else if Ascii.eqb c "\" then None
      else option_map (String c) (id_until_close rest)
  end.

(** A decoder that knows these two shapes and rejects everything else. *)
Definition toy_Unmarshal (b : list byte) : gmap string value * option error :=
  let s := string_of_list_byte b in
  if String.eqb s empty_object then (∅, None)
  else if String.eqb s EmptyString
  then (∅, Some (SyntaxError "unexpected end of JSON input"))
  else
    match strip_prefix ("{" +:+ quote +:+ "id" +:+ quote +:+ ":" +:+ quote) s with
    | Some rest =>
        match id_until_close rest with
        | Some id => ({["id" := VString id]}, None)
        | None => (∅, Some (SyntaxError "invalid character"))
        end
    | None => (∅, Some (SyntaxError "invalid character"))
    end.

(** A body listing one endpoint, and a decoder for endpoint lists that
    knows this body and rejects everything else. *)
Definition one_endpoint : string :=
  "{" +:+ quote +:+ "data" +:+ quote +:+ ":[{" +:+ quote +:+ "url" +:+ quote
  +:+ ":" +:+ quote +:+ "https://example.com/hook" +:+ quote +:+ "}]}".

Definition toy_Unmarshal_WebhookEndpointList (b : list byte)
    (d : WebhookEndpointList) : WebhookEndpointList * option error :=
  let s := string_of_list_byte b in
  if String.eqb s EmptyString
  then (d, Some (SyntaxError "unexpected end of JSON input"))
  else if String.eqb s one_endpoint
  then ({| Data := [{| Application := EmptyString; EnabledEvents := [];
                       URL := "https://example.com/hook" |}] |}, None)
  else (d, Some (SyntaxError "invalid character")).

Definition toy_Examples : @Examples unit :=
  {| Profile := tt; APIBaseURL := "https://api.stripe.com";
     APIVersion := "2019-03-14"; APIKey := "sk_test_123" |}.

(** A decoder that also knows the object whose id is null. *)
Definition object_with_null_id : string :=
  "{" +:+ quote +:+ "id" +:+ quote +:+ ":null}".

Definition toy_Unmarshal_null (b : list byte)
  : gmap string value * option error :=
  if String.eqb (string_of_list_byte b) object_with_null_id
  then ({["id" := VNil]}, None)
  else toy_Unmarshal b.

(** Chains that open with another trigger's whole chain: the second trigger
    starts with the very calls of the first. *)
Definition extends (short long : trigger) : bool :=
  match short, long with
  | T_ChargeSucceeded, T_ChargeRefunded
  | T_CustomerCreated, T_CustomerUpdated
  | T_CustomerCreated, T_CustomerDeleted
  | T_CustomerCreated, T_CustomerSourceCreated
  | T_CustomerCreated, T_CustomerSourceUpdated
  | T_CustomerCreated, T_InvoiceCreated
  | T_CustomerCreated, T_InvoiceFinalized
  | T_CustomerCreated, T_InvoiceUpdated
  | T_CustomerCreated, T_PaymentMethodAttached
  | T_CustomerSourceCreated, T_CustomerSourceUpdated
  | T_InvoiceCreated, T_InvoiceFinalized
  | T_InvoiceCreated, T_InvoiceUpdated => true
  | _, _ => false
  end.


(** The line fmt.Println writes for hello. *)
Definition hello_line : string := "hello" +:+ String "010" EmptyString.

(** The characters of a path that need no escaping: letters, digits,
    underscore and the separator. *)
Definition path_char (c : ascii) : bool :=
  is_alnum c || Ascii.eqb c "_" || Ascii.eqb c "/".

(** A body whose endpoint holds a number where the url should be, and a
    decoder that treats it as encoding/json treats a value of the wrong
    type: the element is stored, the ill-typed member is skipped, and the
    type error is returned once the whole body is read. *)
Definition ill_typed_endpoint : string :=
  "{" +:+ quote +:+ "data" +:+ quote +:+ ":[{" +:+ quote +:+ "url" +:+ quote
  +:+ ":1}]}".

Definition toy_Unmarshal_ill_typed (b : list byte) (d : WebhookEndpointList)
  : WebhookEndpointList * option error :=
  if String.eqb (string_of_list_byte b) ill_typed_endpoint
  then ({| Data := [{| Application := EmptyString; EnabledEvents := [];
                       URL := EmptyString |}] |},
        Some (UnmarshalTypeError
          "json: cannot unmarshal number into Go struct field WebhookEndpoint.data.url of type string"))
  else toy_Unmarshal_WebhookEndpointList b d.

(** A decoder that reads the same ids as [toy_Unmarshal] and adds a member
    to every object. *)
Definition toy_Unmarshal_with_object (b : list byte)
  : gmap string value * option error :=
  (<["object" := VString "customer"]> (fst (toy_Unmarshal b)),
   snd (toy_Unmarshal b)).

(** ** Strings and the event-id pattern *)

Lemma append_empty_r (s : string) : s +:+ EmptyString = s.
Proof.
  induction s as [|c s IH]; [reflexivity|].
  change (String c (s +:+ EmptyString) = String c s). now rewrite IH.
Qed.

(** The pattern of [ResendEvent] compiles, to this tree. *)
Lemma compile_event_pattern :
  regexp_Compile event_pattern =
  inr (OpConcat OpBeginText (OpConcat (OpLiteral "e") (OpConcat (OpLiteral "v")
    (OpConcat (OpLiteral "t") (OpConcat (OpLiteral "_")
    (OpConcat (OpRepeat 3 255 (OpCharClass event_class))
    (OpConcat OpEndText OpEmptyMatch))))))).
Proof. vm_compute. reflexivity. Qed.

(** Its bracket expression holds the ASCII letters and digits. *)
Lemma in_event_class c : in_class event_class c = is_alnum c.
Proof.
  unfold in_class, event_class, is_alnum. cbn [existsb fst snd].
  now rewrite orb_false_r, orb_assoc.
Qed.

(** Up to [n] characters of a class and then the end of the text: what is
    left must be made of such characters, at most [n] of them. *)
Lemma repeat_upto_class rs n p s :
  repeat_upto (match_at (OpCharClass rs)) n at_end (p, s) =
  forallb (in_class rs) (list_ascii_of_string s) && Nat.leb (String.length s) n.
Proof.
  revert p s. induction n as [|n IH]; intros p [|c s]; cbn; try reflexivity.
  - now rewrite andb_false_r.
  - rewrite IH. now rewrite andb_assoc.
Qed.

(** A counted repetition of a class followed by the end of the text. *)
Lemma repeat_exactly_class rs m n p s :
  repeat_exactly (match_at (OpCharClass rs)) m
    (repeat_upto (match_at (OpCharClass rs)) n at_end) (p, s) =
  forallb (in_class rs) (list_ascii_of_string s)
  && Nat.leb m (String.length s) && Nat.leb (String.length s) (m + n).
Proof.
  revert p s. induction m as [|m IH]; intros p s.
  - cbn [repeat_exactly]. rewrite repeat_upto_class. cbn. now rewrite andb_true_r.
  - destruct s as [|c s]; cbn.
    + reflexivity.
    + rewrite IH. now rewrite !andb_assoc.
Qed.

(** A pattern that opens with ^ matches at no later offset. *)
Lemma search_after_begin re n s :
  search (OpConcat OpBeginText re) (S n) s = false.
Proof.
  revert n. induction s as [|c s IH]; intros n; cbn; [reflexivity|apply IH].
Qed.

(** regexp.MatchString on the pattern never errs and decides exactly the
    format stated in words. *)
Lemma event_pattern_matches id :
  regexp_MatchString event_pattern id = (event_id_well_formed id, None).
Proof.
  unfold regexp_MatchString. rewrite compile_event_pattern.
  f_equal. unfold Regexp_MatchString.
  destruct id as [|c1 id]; [reflexivity|].
  cbn [search]. rewrite search_after_begin, orb_false_r.
  cbn [match_at fst snd Nat.eqb andb].
  destruct (Ascii.eqb_spec "e" c1) as [<-|N1];
    [|destruct c1 as [[] [] [] [] [] [] [] []]; try reflexivity; congruence].
  destruct id as [|c2 id]; [reflexivity|].
  destruct (Ascii.eqb_spec "v" c2) as [<-|N2];
    [|destruct c2 as [[] [] [] [] [] [] [] []]; try reflexivity; congruence].
  destruct id as [|c3 id]; [reflexivity|].
  destruct (Ascii.eqb_spec "t" c3) as [<-|N3];
    [|destruct c3 as [[] [] [] [] [] [] [] []]; try reflexivity; congruence].
  destruct id as [|c4 id]; [reflexivity|].
  destruct (Ascii.eqb_spec "_" c4) as [<-|N4];
    [|destruct c4 as [[] [] [] [] [] [] [] []]; try reflexivity; congruence].
  cbn [andb].
  change (repeat_exactly (match_at (OpCharClass event_class)) 3
            (repeat_upto (match_at (OpCharClass event_class)) 252 at_end)
            (4, id) = event_id_well_formed
              (String "e" (String "v" (String "t" (String "_" id))))).
  rewrite repeat_exactly_class.
  cbn [event_id_well_formed].
  do 2 f_equal.
  induction (list_ascii_of_string id) as [|c l IH]; [reflexivity|].
  cbn [forallb]. now rewrite IH, in_event_class.
Qed.

(** A well-formed event id is evt_ followed by 3 to 255 letters or digits. *)
Lemma event_id_shape (id : string) :
  event_id_well_formed id = true ->
  exists rest,
    id = "evt_" +:+ rest /\
    forallb is_alnum (list_ascii_of_string rest) = true /\
    3 <= String.length rest <= 255.
Proof.
  intros H.
  destruct id as [|c1 id]; [discriminate H|].
  destruct (Ascii.eqb_spec "e" c1) as [<-|N1];
    [|destruct c1 as [[] [] [] [] [] [] [] []]; try discriminate H; congruence].
  destruct id as [|c2 id]; [discriminate H|].
  destruct (Ascii.eqb_spec "v" c2) as [<-|N2];
    [|destruct c2 as [[] [] [] [] [] [] [] []]; try discriminate H; congruence].
  destruct id as [|c3 id]; [discriminate H|].
  destruct (Ascii.eqb_spec "t" c3) as [<-|N3];
    [|destruct c3 as [[] [] [] [] [] [] [] []]; try discriminate H; congruence].
  destruct id as [|c4 id]; [discriminate H|].
  destruct (Ascii.eqb_spec "_" c4) as [<-|N4];
    [|destruct c4 as [[] [] [] [] [] [] [] []]; try discriminate H; congruence].
  cbn [event_id_well_formed] in H.
  apply andb_prop in H as [H Hmax]. apply andb_prop in H as [Hall Hmin].
  apply Nat.leb_le in Hmin, Hmax.
  exists id. repeat split; assumption.
Qed.

(** Path characters of a concatenation. *)
Lemma forallb_path_char_append (s1 s2 : string) :
  forallb path_char (list_ascii_of_string (s1 +:+ s2)) =
  forallb path_char (list_ascii_of_string s1)
  && forallb path_char (list_ascii_of_string s2).
Proof.
  induction s1 as [|c s1 IH]; [reflexivity|].
  change (list_ascii_of_string (String c s1 +:+ s2))
    with (c :: list_ascii_of_string (s1 +:+ s2)).
  cbn [forallb list_ascii_of_string]. now rewrite IH, andb_assoc.
Qed.

(** Letters and digits are path characters. *)
Lemma alnum_is_path_char (l : list ascii) :
  forallb is_alnum l = true -> forallb path_char l = true.
Proof.
  induction l as [|c l IH]; [reflexivity|]. cbn [forallb].
  intros H. apply andb_prop in H as [Hc Hl].
  unfold path_char at 1. now rewrite Hc, IH.
Qed.

(** The length of a concatenation. *)
Lemma length_append (s1 s2 : string) :
  String.length (s1 +:+ s2) = String.length s1 + String.length s2.
Proof.
  induction s1 as [|c s1 IH]; [reflexivity|].
  change (S (String.length (s1 +:+ s2)) = S (String.length s1 + String.length s2)).
  now rewrite IH.
Qed.

(** ** The triggers, for every service and decoder *)

Section Facts.
Context {config_Profile World : Type}.
Variable Base_MakeRequest :
  @Base config_Profile -> string -> string -> RequestParameters -> bool ->
  World -> (list byte * option error) * World.
Variable json_Unmarshal : list byte -> gmap string value * option error.
Variable json_Unmarshal_WebhookEndpointList :
  list byte -> WebhookEndpointList -> WebhookEndpointList * option error.

(** A scripted world gives its first answer to any request. *)
Lemma answers_cons w r rs :
  answers Base_MakeRequest w (r :: rs) ->
  forall req apiKey path params errOnStatus,
  exists w', Base_MakeRequest req apiKey path params errOnStatus w = (r, w')
             /\ answers Base_MakeRequest w' rs.
Proof.
  intros H req apiKey path params errOnStatus.
  destruct (H req apiKey path params errOnStatus) as [Hr Hw].
  destruct (Base_MakeRequest req apiKey path params errOnStatus w) as [r' w'].
  simpl in *. subst. eauto.
Qed.

(** Unfolding a trigger down to the calls of the service and the decoder. *)
Ltac unfold_engine :=
  unfold run, ChargeCaptured, ChargeDisputed, ChargeFailed, ChargeRefunded,
    ChargeSucceeded, CheckoutSessionCompleted, CustomerCreated,
    CustomerUpdated, CustomerDeleted, CustomerSourceCreated,
    CustomerSourceUpdated, CustomerSubscriptionUpdated,
    CustomerSubscriptionDeleted, InvoiceCreated, InvoiceFinalized,
    InvoicePaymentSucceeded, InvoicePaymentFailed, InvoiceUpdated,
    PaymentIntentCreated, PaymentIntentSucceeded, PaymentIntentFailed,
    PaymentMethodAttached, chargeCreated, customerCreated, createInvoiceItem,
    invoiceCreated, paymentIntentCreated, paymentMethodCreated,
    paymentMethodCreatedWithToken, performStripeRequest, buildRequest,
    MakeRequest, Println, parseResponse, index_ok, bind, ret, init.

(** Running the next request against the script [H]. *)
Ltac answer H :=
  match goal with
  | |- context [Base_MakeRequest ?r ?k ?p ?ps ?f ?w] =>
      let w' := fresh "w" in
      let E := fresh "E" in
      let H' := fresh "Hans" in
      destruct (answers_cons _ _ _ H r k p ps f) as (w' & E & H');
      rewrite E; clear E; cbn
  end.

(** C7: when the service answers both requests with successes and the
    first body decodes to a map whose "id" is the string [id],
    ChargeCaptured issues exactly two requests, a POST to /v1/charges with
    amount=2000, currency=usd, capture=false and source=tok_visa, then a POST
    to /v1/charges/<id>/capture with no parameter, and returns nil. *)
Theorem ChargeCaptured_two_calls (ex : Examples) (w : World)
    (b1 b2 : list byte) (m1 m2 : gmap string value) (id : string) :
  answers Base_MakeRequest w [(b1, None); (b2, None)] ->
  json_Unmarshal b1 = (m1, None) ->
  m1 !! "id" = Some (VString id) ->
  json_Unmarshal b2 = (m2, None) ->
  fst (ChargeCaptured Base_MakeRequest json_Unmarshal ex (init w)) = None /\
  map shape (calls (snd
    (ChargeCaptured Base_MakeRequest json_Unmarshal ex (init w)))) =
    [("POST", "/v1/charges",
      ["amount=2000"; "currency=usd"; "capture=false"; "source=tok_visa"]);
     ("POST", "/v1/charges/" +:+ id +:+ "/capture", [])].
Proof.
  intros Hans D1 Hid D2.
  unfold_engine; cbn.
  answer Hans. rewrite D1. cbn.
  answer Hans0.
  rewrite D2. cbn. split; [reflexivity|].
  rewrite lookup_total_alt, Hid. reflexivity.
Qed.

(** Case analysis on the next answer of the service, the next decoding and
    the next look-up of "id". *)
Ltac exec_step :=
  match goal with
  | |- context [Base_MakeRequest ?r ?k ?p ?ps ?f ?w] =>
      let E := fresh "Eexec" in
      destruct (Base_MakeRequest r k p ps f w) as [[? [?|]] ?] eqn:E; cbn
  | |- context [json_Unmarshal ?b] =>
      let E := fresh "Edec" in
      destruct (json_Unmarshal b) as [? [?|]] eqn:E; cbn
  | |- context [?m !! "id"] =>
      let E := fresh "Eidx" in
      destruct (m !! "id") eqn:E; cbn
  end.

(** On a finished run, the step that failed can only be the last one. *)
Ltac failure_cases :=
  let k := fresh "k" in let c := fresh "c" in let e := fresh "e" in let Hk := fresh "Hk" in let Hf := fresh "Hf" in intros k c e Hk Hf;
  repeat (destruct k as [|k]; cbn in Hk;
          [ injection Hk as <-; unfold step_failure, parseResponse in Hf; cbn in Hf;
            repeat match goal with
                   | E : json_Unmarshal _ = _ |- _ => rewrite E in Hf; cbn in Hf
                   end;
            try discriminate; try (injection Hf as <-; split; reflexivity) | ]);
  try discriminate.

(** C2: in every trigger, if request number [k] failed, in the service or
    in decoding its body, then it is the last request issued and the trigger
    returns exactly that error. *)
Theorem short_circuit (t : trigger) (ex : Examples) (w : World)
    (k : nat) (c : Call) (e : error) :
  calls (snd (run Base_MakeRequest json_Unmarshal t ex (init w))) !! k = Some c ->
  step_failure json_Unmarshal c = Some e ->
  length (calls (snd (run Base_MakeRequest json_Unmarshal t ex (init w)))) = S k /\
  fst (run Base_MakeRequest json_Unmarshal t ex (init w)) = Some e.
Proof.
  revert k c e.
  destruct t; unfold_engine; cbn; repeat exec_step; failure_cases.
Qed.



Ltac all_paths := unfold_engine; cbn; repeat exec_step.

Ltac use_decodes :=
  unfold step_failure, parseResponse; cbn;
  repeat match goal with
         | E : json_Unmarshal ?b = _ |- context [json_Unmarshal ?b] =>
             rewrite E; cbn
         end.

(** Every request of every trigger asks for output suppression and for an
    error on a bad status, with the key and version of the receiver. *)
Lemma requests_suppress_output (t : trigger) (ex : Examples) (w : World) :
  Forall (fun c => SuppressOutput (call_req c) = true /\
                   call_errOnStatus c = true /\
                   call_apiKey c = APIKey ex /\
                   version (call_params c) = APIVersion ex)
    (calls (snd (run Base_MakeRequest json_Unmarshal t ex (init w)))).
Proof. destruct t; all_paths; repeat constructor. Qed.

(** No trigger but InvoicePaymentFailed writes to standard output. *)
Lemma other_triggers_print_nothing (t : trigger) (ex : Examples) (w : World) :
  t <> T_InvoicePaymentFailed ->
  stdout (snd (run Base_MakeRequest json_Unmarshal t ex (init w))) = [].
Proof. intros Ht. destruct t; try congruence; all_paths; reflexivity. Qed.



(** Running the next request against whichever script speaks of its world. *)
Ltac answer_any :=
  match goal with
  | |- context [Base_MakeRequest ?r ?k ?p ?ps ?f ?w] =>
      match goal with
      | H : answers _ w (_ :: _) |- _ =>
          let w' := fresh "w" in
          let E := fresh "E" in
          let H' := fresh "Hans" in
          destruct (answers_cons _ _ _ H r k p ps f) as (w' & E & H');
          rewrite E; clear E; cbn
      end
  end.

(** C3: when the service answers with four successes whose first three
    bodies decode to maps with "id" cs_1, pp_1 and pm_1,
    CheckoutSessionCompleted issues exactly four requests in this order: POST
    /v1/checkout/sessions, GET /v1/payment_pages with session_id=cs_1, POST
    /v1/payment_methods, POST /v1/payment_pages/pp_1/confirm with
    payment_method=pm_1; and it returns nil. *)
Theorem CheckoutSessionCompleted_four_calls (ex : Examples) (w : World)
    (b1 b2 b3 b4 : list byte) (m1 m2 m3 m4 : gmap string value) :
  answers Base_MakeRequest w [(b1, None); (b2, None); (b3, None); (b4, None)] ->
  json_Unmarshal b1 = (m1, None) -> m1 !! "id" = Some (VString "cs_1") ->
  json_Unmarshal b2 = (m2, None) -> m2 !! "id" = Some (VString "pp_1") ->
  json_Unmarshal b3 = (m3, None) -> m3 !! "id" = Some (VString "pm_1") ->
  json_Unmarshal b4 = (m4, None) ->
  fst (CheckoutSessionCompleted Base_MakeRequest json_Unmarshal ex (init w)) = None /\
  map shape (calls (snd
    (CheckoutSessionCompleted Base_MakeRequest json_Unmarshal ex (init w)))) =
    [("POST", "/v1/checkout/sessions",
      ["success_url=https://httpbin.org/post";
       "cancel_url=https://httpbin.org/post";
       "payment_method_types[]=card";
       "line_items[][name]=T-shirt";
       "line_items[][description]=Comfortable cotton t-shirt";
       "line_items[][amount]=1500";
       "line_items[][currency]=usd";
       "line_items[][quantity]=2"]);
     ("GET", "/v1/payment_pages", ["session_id=cs_1"]);
     ("POST", "/v1/payment_methods",
      ["type=card"; "card[token]=tok_visa";
       "billing_details[email]=stripe@example.com"]);
     ("POST", "/v1/payment_pages/pp_1/confirm", ["payment_method=pm_1"])].
Proof.
  intros Hans D1 I1 D2 I2 D3 I3 D4.
  unfold_engine; cbn.
  answer_any. rewrite D1; cbn. rewrite I1; cbn.
  answer_any. rewrite D2; cbn. rewrite I2; cbn.
  answer_any. rewrite D3; cbn. rewrite I3; cbn.
  answer_any. rewrite D4; cbn.
  split; reflexivity.
Qed.

(** X6: CheckoutSessionCompleted does look for the ids it threads: when one
    of its first three responses decodes to a map without "id", that request
    is the last one and the error names the object. *)
Lemma CheckoutSessionCompleted_checks_ids (ex : Examples) (w : World) :
  let r := CheckoutSessionCompleted Base_MakeRequest json_Unmarshal ex (init w) in
  forall k c,
    calls (snd r) !! k = Some c ->
    step_failure json_Unmarshal c = None ->
    k < 3 ->
    fst (parseResponse json_Unmarshal (call_resp c)) !! "id" = None ->
    length (calls (snd r)) = S k /\
    fst r = Some (errors_New
      (match k with
       | 0 => "Unable to retrieve CheckoutSession ID"
       | 1 => "Unable to retrieve PaymentPage ID"
       | _ => "Unable to retrieve PaymentMethod ID"
       end)).
Proof.
  cbn zeta. all_paths; intros k c Hk Hf Hlt Hid;
    repeat (destruct k as [|k]; cbn in Hk;
            [ injection Hk as <-; unfold step_failure, parseResponse in Hf, Hid;
              cbn in Hf, Hid;
              repeat match goal with
                     | E : json_Unmarshal _ = _ |- _ =>
                         rewrite E in Hf, Hid; cbn in Hf, Hid
                     end;
              try discriminate; try congruence; try lia;
              try (split; reflexivity) | ]);
    try discriminate; try lia.
Qed.

(** C4: ResendEvent matches the id against ^evt_[A-Za-z0-9]{3,255}$, that
    is, evt_ followed by 3 to 255 ASCII letters or digits.  For an id that
    does not match it issues no request and returns an error whose message
    quotes the pattern; for an id that matches it issues exactly one request,
    a POST to /v1/events/<id>/retry, and returns the outcome of that request
    and of decoding its body, unchanged. *)
Theorem ResendEvent_validates (ex : Examples) (id : string) (w : World) :
  regexp_MatchString event_pattern id = (event_id_well_formed id, None) /\
  let r := ResendEvent Base_MakeRequest json_Unmarshal ex id (init w) in
  if event_id_well_formed id
  then exists c,
         calls (snd r) = [c] /\
         shape c = ("POST", "/v1/events/" +:+ id +:+ "/retry", []) /\
         fst r = step_failure json_Unmarshal c
  else calls (snd r) = [] /\
       fst r = Some (ErrorString
         "Invalid event-id provided, should be of the form '^evt_[A-Za-z0-9]{3,255}$'").
Proof.
  split; [apply event_pattern_matches|].
  cbn zeta. unfold ResendEvent. rewrite event_pattern_matches.
  destruct (event_id_well_formed id); cbn.
  - all_paths; eexists; (split; [reflexivity|]); (split; [reflexivity|]);
      use_decodes; reflexivity.
  - split; reflexivity.
Qed.

(** C10: the pattern of ResendEvent compiles, so regexp.MatchString returns
    no error for any id; ResendEvent therefore returns nil, or the format
    error for an id that does not match, or the error of its single request
    or of decoding that request's body. *)
Theorem ResendEvent_outcomes (ex : Examples) (id : string) (w : World) :
  (exists re, regexp_Compile event_pattern = inr re) /\
  snd (regexp_MatchString event_pattern id) = None /\
  let r := ResendEvent Base_MakeRequest json_Unmarshal ex id (init w) in
  fst r = None \/
  (event_id_well_formed id = false /\
   fst r = Some (Errorf "Invalid event-id provided, should be of the form '%s'"
                   [VString event_pattern])) \/
  (exists c e, calls (snd r) = [c] /\
               step_failure json_Unmarshal c = Some e /\ fst r = Some e).
Proof.
  split; [rewrite compile_event_pattern; eauto|].
  split; [now rewrite event_pattern_matches|].
  cbn zeta. unfold ResendEvent. rewrite event_pattern_matches.
  destruct (event_id_well_formed id); cbn.
  - all_paths; first
      [ left; reflexivity
      | right; right; eexists; eexists; (split; [reflexivity|]);
        use_decodes; split; reflexivity ].
  - right; left; split; reflexivity.
Qed.

(** C5, as amended: WebhookEndpointsList issues exactly one request, a GET
    to /v1/webhook_endpoints with limit=30 and output suppressed, and returns
    a list in every case, never an error: what json.Unmarshal left in a
    zero-valued list from the body handed back, both errors being dropped.
    With a service that hands back no body on failure and a decoder that
    leaves its target alone on malformed input, a failed request or a body
    that is not well-formed JSON gives the zero-valued list.  A well-formed
    body of the wrong type is not promised to: the list is then whatever the
    decoder stored before it reported the type error. *)
Theorem WebhookEndpointsList_lenient (ex : Examples) (w : World) :
  let r := WebhookEndpointsList Base_MakeRequest
             json_Unmarshal_WebhookEndpointList ex (init w) in
  exists c,
    calls (snd r) = [c] /\
    shape c = ("GET", "/v1/webhook_endpoints", ["limit=30"]) /\
    SuppressOutput (call_req c) = true /\
    fst r = fst (json_Unmarshal_WebhookEndpointList (call_resp c)
                   WebhookEndpointList_zero) /\
    (failure_has_no_body Base_MakeRequest ->
     malformed_leaves_target json_Unmarshal_WebhookEndpointList ->
     is_Some (call_err c) \/
     (exists msg, snd (json_Unmarshal_WebhookEndpointList (call_resp c)
                         WebhookEndpointList_zero) = Some (SyntaxError msg)) ->
     fst r = WebhookEndpointList_zero).
Proof.
  cbn zeta. unfold WebhookEndpointsList, MakeRequest, bind, ret, init. cbn.
  destruct (Base_MakeRequest _ _ _ _ _ w) as [[resp err] w'] eqn:E. cbn.
  destruct (json_Unmarshal_WebhookEndpointList resp WebhookEndpointList_zero)
    as [d derr] eqn:D. cbn.
  eexists. split; [reflexivity|]. cbn. rewrite D. cbn.
  repeat (split; [reflexivity|]).
  intros Hexec [Hleft Hempty] [[e He] | [msg Hmsg]].
  - cbn in He. subst err. apply Hexec in E. subst resp.
    destruct (Hempty WebhookEndpointList_zero) as [msg Hmsg].
    rewrite Hmsg in D. now injection D as <- _.
  - cbn in Hmsg. subst derr. now apply Hleft in D.
Qed.

(** Running two triggers side by side against one script. *)
Ltac script_step :=
  first
    [ answer_any
    | match goal with
      | |- context [match ?o with Some _ => _ | None => _ end] =>
          is_var o; destruct o; cbn
      end
    | match goal with
      | |- context [json_Unmarshal ?b] =>
          let E := fresh "Edec" in
          destruct (json_Unmarshal b) as [? [?|]] eqn:E; cbn
      end ].

(** C8: the funding source of each trigger.  ChargeSucceeded, ChargeFailed
    and ChargeDisputed issue the same single POST to /v1/charges with
    source=tok_visa, source=tok_chargeDeclined and
    source=tok_createDisputeInquiry; ChargeCaptured and ChargeRefunded open
    with source=tok_visa; InvoicePaymentSucceeded creates its customer with
    source=tok_visa and InvoicePaymentFailed with
    source=tok_chargeCustomerFail.  Given the same four answers, the two
    invoice chains return the same result and issue the same requests after
    that first one. *)
Theorem funding_source_tokens (ex : Examples) (w : World) :
  let trace t :=
    map shape (calls (snd (run Base_MakeRequest json_Unmarshal t ex (init w)))) in
  let result t := fst (run Base_MakeRequest json_Unmarshal t ex (init w)) in
  trace T_ChargeSucceeded =
    [("POST", "/v1/charges", ["amount=2000"; "currency=usd"; "source=tok_visa"])] /\
  trace T_ChargeFailed =
    [("POST", "/v1/charges",
      ["amount=2000"; "currency=usd"; "source=tok_chargeDeclined"])] /\
  trace T_ChargeDisputed =
    [("POST", "/v1/charges",
      ["amount=2000"; "currency=usd"; "source=tok_createDisputeInquiry"])] /\
  head (trace T_ChargeCaptured) =
    Some ("POST", "/v1/charges",
          ["amount=2000"; "currency=usd"; "capture=false"; "source=tok_visa"]) /\
  head (trace T_ChargeRefunded) =
    Some ("POST", "/v1/charges",
          ["amount=2000"; "currency=usd"; "source=tok_visa"]) /\
  head (trace T_InvoicePaymentSucceeded) =
    Some ("POST", "/v1/customers", ["source=tok_visa"]) /\
  head (trace T_InvoicePaymentFailed) =
    Some ("POST", "/v1/customers", ["source=tok_chargeCustomerFail"]) /\
  (forall r1 r2 r3 r4,
     answers Base_MakeRequest w [r1; r2; r3; r4] ->
     result T_InvoicePaymentFailed = result T_InvoicePaymentSucceeded /\
     tail (trace T_InvoicePaymentFailed) = tail (trace T_InvoicePaymentSucceeded)).
Proof.
  cbn zeta.
  repeat match goal with
         | |- _ = _ /\ _ => split; [all_paths; reflexivity|]
         end.
  intros [b1 o1] [b2 o2] [b3 o3] [b4 o4] Hans.
  unfold_engine; cbn. repeat script_step; split; reflexivity.
Qed.


(** ** Further properties of the triggers *)

(** Indexing a map whose "id" is known. *)
Ltac known_ids :=
  repeat match goal with
         | E : ?m !! "id" = _ |- context [?m !!! "id"] =>
             rewrite (lookup_total_alt m "id"), E; cbn
         end.

(** X1: whatever the service answers, the requests a trigger issues are the
    first requests of its plan, each id being what indexing the decoded
    response of the earlier request at "id" gave. *)
Theorem requests_follow_plan (t : trigger) (ex : Examples) (w : World) :
  let st := snd (run Base_MakeRequest json_Unmarshal t ex (init w)) in
  map shape (calls st) =
  take (length (calls st))
    (plan t (map (response_id json_Unmarshal) (calls st))).
Proof.
  cbn zeta.
  destruct t; all_paths; unfold response_id; use_decodes; known_ids;
    rewrite ?append_empty_r; reflexivity.
Qed.

(** X2: a trigger issues at least one request and never more than its plan
    holds, which is at most four. *)
Theorem request_count_bounds (t : trigger) (ex : Examples) (w : World) :
  let st := snd (run Base_MakeRequest json_Unmarshal t ex (init w)) in
  1 <= length (calls st) <= steps t /\ steps t <= 4.
Proof.
  cbn zeta. destruct t; all_paths; lia.
Qed.

(** X3: a trigger that returns nil has issued every request of its plan, and
    each of them succeeded, in the service and in decoding. *)
Theorem success_means_every_step (t : trigger) (ex : Examples) (w : World) :
  let r := run Base_MakeRequest json_Unmarshal t ex (init w) in
  fst r = None ->
  length (calls (snd r)) = steps t /\
  Forall (fun c => step_failure json_Unmarshal c = None) (calls (snd r)).
Proof.
  cbn zeta.
  destruct t; all_paths; intros Hres; try discriminate Hres;
    (split; [reflexivity | repeat constructor; use_decodes; reflexivity]).
Qed.

(** X4: every request of every trigger, of ResendEvent and of
    WebhookEndpointsList carries the profile, base URL, API key and version
    of the receiver, asks for output suppression and for an error on a bad
    status. *)
Theorem requests_carry_receiver_context (ex : Examples) (w : World) :
  (forall t, Forall (built_by ex)
     (calls (snd (run Base_MakeRequest json_Unmarshal t ex (init w))))) /\
  (forall id, Forall (built_by ex)
     (calls (snd (ResendEvent Base_MakeRequest json_Unmarshal ex id (init w))))) /\
  Forall (built_by ex)
    (calls (snd (WebhookEndpointsList Base_MakeRequest
                   json_Unmarshal_WebhookEndpointList ex (init w)))).
Proof.
  split; [|split].
  - intros t. destruct t; all_paths; repeat constructor.
  - intros id. unfold ResendEvent.
    destruct (regexp_MatchString event_pattern id) as [m [e|]]; cbn;
      [constructor|].
    destruct m; cbn; [|constructor].
    all_paths; repeat constructor.
  - unfold WebhookEndpointsList, MakeRequest, bind, ret, init; cbn.
    destruct (Base_MakeRequest _ _ _ _ _ w) as [[resp err] w']; cbn.
    destruct (json_Unmarshal_WebhookEndpointList resp WebhookEndpointList_zero);
      cbn.
    repeat constructor.
Qed.

(** X5: the only line any operation writes to standard output is hello,
    written by InvoicePaymentFailed exactly when it reaches its fourth
    request; the other triggers, ResendEvent and WebhookEndpointsList write
    nothing. *)
Theorem standard_output (ex : Examples) (w : World) :
  (forall t,
     let st := snd (run Base_MakeRequest json_Unmarshal t ex (init w)) in
     stdout st =
     match t with
     | T_InvoicePaymentFailed =>
         if Nat.eqb (length (calls st)) 4 then [hello_line] else []
     | _ => []
     end) /\
  (forall id,
     stdout (snd (ResendEvent Base_MakeRequest json_Unmarshal ex id (init w)))
     = []) /\
  stdout (snd (WebhookEndpointsList Base_MakeRequest
                 json_Unmarshal_WebhookEndpointList ex (init w))) = [].
Proof.
  split; [|split].
  - intros t. cbn zeta. destruct t; all_paths; reflexivity.
  - intros id. unfold ResendEvent.
    destruct (regexp_MatchString event_pattern id) as [m [e|]]; cbn;
      [reflexivity|].
    destruct m; cbn; [|reflexivity].
    all_paths; reflexivity.
  - unfold WebhookEndpointsList, MakeRequest, bind, ret, init; cbn.
    destruct (Base_MakeRequest _ _ _ _ _ w) as [[resp err] w']; cbn.
    destruct (json_Unmarshal_WebhookEndpointList resp WebhookEndpointList_zero);
      reflexivity.
Qed.

(** X7: CheckoutSessionCompleted checks that "id" is present, not what it
    holds: with four successes whose first three responses have an "id" of
    any kind, null included, it issues its four requests with those values
    printed under %s, and returns nil. *)
Theorem CheckoutSessionCompleted_accepts_any_present_id (ex : Examples)
    (w : World) (b1 b2 b3 b4 : list byte) (m1 m2 m3 m4 : gmap string value)
    (v1 v2 v3 : value) :
  answers Base_MakeRequest w [(b1, None); (b2, None); (b3, None); (b4, None)] ->
  json_Unmarshal b1 = (m1, None) -> m1 !! "id" = Some v1 ->
  json_Unmarshal b2 = (m2, None) -> m2 !! "id" = Some v2 ->
  json_Unmarshal b3 = (m3, None) -> m3 !! "id" = Some v3 ->
  json_Unmarshal b4 = (m4, None) ->
  let r := CheckoutSessionCompleted Base_MakeRequest json_Unmarshal ex (init w) in
  fst r = None /\
  map shape (calls (snd r)) = plan T_CheckoutSessionCompleted [v1; v2; v3].
Proof.
  intros Hans D1 I1 D2 I2 D3 I3 D4. cbn zeta.
  unfold_engine; cbn.
  answer_any. rewrite D1; cbn. rewrite I1; cbn.
  answer_any. rewrite D2; cbn. rewrite I2; cbn.
  answer_any. rewrite D3; cbn. rewrite I3; cbn.
  answer_any. rewrite D4; cbn.
  split; [reflexivity|]. rewrite ?append_empty_r. reflexivity.
Qed.

(** X8: a trigger that extends another starts with the very requests of the
    shorter one, and when the shorter one fails the longer one ends in the
    same state with the same error. *)
Theorem longer_chain_extends_shorter (short long : trigger) (ex : Examples)
    (w : World) :
  extends short long = true ->
  let rs := run Base_MakeRequest json_Unmarshal short ex (init w) in
  let rl := run Base_MakeRequest json_Unmarshal long ex (init w) in
  calls (snd rs) = take (length (calls (snd rs))) (calls (snd rl)) /\
  (forall e, fst rs = Some e -> rl = rs).
Proof.
  intros Hext. cbn zeta.
  destruct short, long; try discriminate Hext; clear Hext; all_paths;
    (split; [reflexivity | intros e' He'; first [discriminate He' | reflexivity]]).
Qed.

(** X9: CustomerSubscriptionUpdated and CustomerSubscriptionDeleted issue the
    same first three requests, as many requests as each other and to the same
    paths; when they stop before the fourth request they end alike. *)
Theorem subscription_chains_share_setup (ex : Examples) (w : World) :
  let ru := run Base_MakeRequest json_Unmarshal T_CustomerSubscriptionUpdated
              ex (init w) in
  let rd := run Base_MakeRequest json_Unmarshal T_CustomerSubscriptionDeleted
              ex (init w) in
  take 3 (calls (snd ru)) = take 3 (calls (snd rd)) /\
  length (calls (snd ru)) = length (calls (snd rd)) /\
  map call_path (calls (snd ru)) = map call_path (calls (snd rd)) /\
  (length (calls (snd ru)) < 4 -> ru = rd).
Proof.
  cbn zeta. all_paths;
    (split; [reflexivity|]; split; [reflexivity|]; split; [reflexivity|]);
    intros Hlt; first [reflexivity | cbn in Hlt; lia].
Qed.


(** X11: a request issued by ResendEvent goes to /v1/events/<id>/retry, a
    path of 24 to 276 characters made only of letters, digits, underscores
    and slashes. *)
Theorem ResendEvent_path_is_clean (ex : Examples) (id : string) (w : World)
    (c : Call) :
  In c (calls (snd (ResendEvent Base_MakeRequest json_Unmarshal ex id (init w)))) ->
  call_path c = "/v1/events/" +:+ id +:+ "/retry" /\
  forallb path_char (list_ascii_of_string (call_path c)) = true /\
  24 <= String.length (call_path c) <= 276.
Proof.
  unfold ResendEvent. rewrite event_pattern_matches.
  destruct (event_id_well_formed id) eqn:Hwf; cbn; [|intros []].
  destruct (event_id_shape id Hwf) as (rest & Hid & Hall & Hmin & Hmax).
  assert (Hchars : forallb path_char (list_ascii_of_string id) = true).
  { subst id. rewrite forallb_path_char_append.
    now rewrite (alnum_is_path_char _ Hall). }
  assert (Hlen : String.length id = 4 + String.length rest).
  { subst id. now rewrite length_append. }
  all_paths; (intros [<-|[]]; cbn [call_path]);
    (split; [reflexivity|]);
    cbn [list_ascii_of_string forallb String.length];
    rewrite forallb_path_char_append, length_append, Hchars, Hlen;
    (split; [reflexivity | cbn; lia]).
Qed.


(** A second decoder that reports the same errors and, on success, the
    same "id". *)
Section OtherDecoder.
Variable other_Unmarshal : list byte -> gmap string value * option error.
Hypothesis same_errors_and_ids : forall b,
  snd (json_Unmarshal b) = snd (other_Unmarshal b) /\
  (snd (json_Unmarshal b) = None ->
   fst (json_Unmarshal b) !! "id" = fst (other_Unmarshal b) !! "id").

(** Running one trigger under both decoders. *)
Ltac twin_step :=
  match goal with
  | |- context [Base_MakeRequest ?r ?k ?p ?ps ?f ?w] =>
      destruct (Base_MakeRequest r k p ps f w) as [[? [?|]] ?]; cbn
  | |- context [json_Unmarshal ?b] =>
      let m1 := fresh "m" in
      let m2 := fresh "n" in
      let e1 := fresh "e" in
      let e2 := fresh "f" in
      let He := fresh "He" in
      let Hid := fresh "Hid" in
      destruct (same_errors_and_ids b) as [He Hid];
      destruct (json_Unmarshal b) as [m1 e1];
      destruct (other_Unmarshal b) as [m2 e2];
      cbn in He, Hid; subst e2; destruct e1; cbn;
      [ | specialize (Hid eq_refl);
          rewrite ?(lookup_total_alt m1), ?(lookup_total_alt m2), ?Hid ]
  | |- context [?m !! "id"] => destruct (m !! "id"); cbn
  end.

(** X13: "id" is the only member of a response that a trigger reads: under
    two decoders that report the same errors and the same "id", a trigger
    issues the same requests, ends in the same state and returns the same
    result. *)
Theorem only_id_is_read (t : trigger) (ex : Examples) (w : World) :
  run Base_MakeRequest json_Unmarshal t ex (init w) =
  run Base_MakeRequest other_Unmarshal t ex (init w).
Proof.
  destruct t; unfold_engine; cbn; repeat twin_step; reflexivity.
Qed.
End OtherDecoder.

End Facts.

(** ** Runs against the scripted service *)

(** C1: ChargeCaptured on a first response that decodes to a map without
    "id".  The specification asks for an abort with an error naming the
    missing id; the trigger instead goes on to POST
    /v1/charges/%!s(<nil>)/capture and returns nil. *)
Theorem ChargeCaptured_ignores_missing_id :
  let r := ChargeCaptured scripted_MakeRequest toy_Unmarshal toy_Examples
             (init [ok empty_object; ok empty_object]) in
  fst r = None /\
  map shape (calls (snd r)) =
    [("POST", "/v1/charges",
      ["amount=2000"; "currency=usd"; "capture=false"; "source=tok_visa"]);
     ("POST", "/v1/charges/%!s(<nil>)/capture", [])].
Proof. vm_compute. split; reflexivity. Qed.

(** C6: InvoicePaymentFailed on four successes.  The specification asks that
    nothing be printed; the trigger writes the line hello to standard output
    before its last request, which InvoicePaymentSucceeded on the same
    answers does not. *)
Theorem InvoicePaymentFailed_prints_hello :
  let r := InvoicePaymentFailed scripted_MakeRequest toy_Unmarshal toy_Examples
             (init [ok (object_with_id "cus_1"); ok (object_with_id "ii_1");
                    ok (object_with_id "in_1"); ok (object_with_id "in_1")]) in
  fst r = None /\
  stdout (snd r) = ["hello" +:+ String "010" EmptyString] /\
  stdout (snd (InvoicePaymentSucceeded scripted_MakeRequest toy_Unmarshal
     toy_Examples
     (init [ok (object_with_id "cus_1"); ok (object_with_id "ii_1");
            ok (object_with_id "in_1"); ok (object_with_id "in_1")]))) = [].
Proof. vm_compute. repeat split; reflexivity. Qed.

(** C2 on CustomerSubscriptionDeleted: the third request times out. *)
Lemma short_circuit_witness :
  let r := run scripted_MakeRequest toy_Unmarshal T_CustomerSubscriptionDeleted
             toy_Examples
             (init [ok (object_with_id "cus_1"); ok (object_with_id "plan_1");
                    failed "timeout"; ok empty_object]) in
  length (calls (snd r)) = 3 /\ fst r = Some (OtherError "timeout").
Proof.
  eapply (short_circuit scripted_MakeRequest toy_Unmarshal
            T_CustomerSubscriptionDeleted toy_Examples _ 2).
  - vm_compute. reflexivity.
  - vm_compute. reflexivity.
Defined.


(** C3 on the scripted service. *)
Lemma CheckoutSessionCompleted_four_calls_witness :
  let r := CheckoutSessionCompleted scripted_MakeRequest toy_Unmarshal
             toy_Examples
             (init [ok (object_with_id "cs_1"); ok (object_with_id "pp_1");
                    ok (object_with_id "pm_1"); ok empty_object]) in
  fst r = None /\
  map (fun c => call_path c) (calls (snd r)) =
    ["/v1/checkout/sessions"; "/v1/payment_pages"; "/v1/payment_methods";
     "/v1/payment_pages/pp_1/confirm"].
Proof.
  destruct (CheckoutSessionCompleted_four_calls
              scripted_MakeRequest toy_Unmarshal toy_Examples
              [ok (object_with_id "cs_1"); ok (object_with_id "pp_1");
               ok (object_with_id "pm_1"); ok empty_object]
              (list_byte_of_string (object_with_id "cs_1"))
              (list_byte_of_string (object_with_id "pp_1"))
              (list_byte_of_string (object_with_id "pm_1"))
              (list_byte_of_string empty_object)
              {["id" := VString "cs_1"]} {["id" := VString "pp_1"]}
              {["id" := VString "pm_1"]} ∅) as [Hres Htrace].
  - simpl. repeat (intros; split; try reflexivity).
  - vm_compute. reflexivity.
  - vm_compute. reflexivity.
  - vm_compute. reflexivity.
  - vm_compute. reflexivity.
  - vm_compute. reflexivity.
  - vm_compute. reflexivity.
  - vm_compute. reflexivity.
  - split; [exact Hres|].
    vm_compute. reflexivity.
Defined.

(** C7 on the scripted service, the charge being ch_1. *)
Lemma ChargeCaptured_two_calls_witness :
  let r := ChargeCaptured scripted_MakeRequest toy_Unmarshal toy_Examples
             (init [ok (object_with_id "ch_1"); ok (object_with_id "ch_1")]) in
  fst r = None /\
  map shape (calls (snd r)) =
    [("POST", "/v1/charges",
      ["amount=2000"; "currency=usd"; "capture=false"; "source=tok_visa"]);
     ("POST", "/v1/charges/ch_1/capture", [])].
Proof.
  apply (ChargeCaptured_two_calls scripted_MakeRequest toy_Unmarshal
           toy_Examples
           [ok (object_with_id "ch_1"); ok (object_with_id "ch_1")]
           (list_byte_of_string (object_with_id "ch_1"))
           (list_byte_of_string (object_with_id "ch_1"))
           {["id" := VString "ch_1"]} {["id" := VString "ch_1"]} "ch_1").
  - simpl. repeat (intros; split; try reflexivity).
  - vm_compute. reflexivity.
  - vm_compute. reflexivity.
  - vm_compute. reflexivity.
Defined.


(** C8 on the two invoice chains, the payment being declined. *)
Lemma funding_source_tokens_witness :
  let script := [ok (object_with_id "cus_1"); ok (object_with_id "ii_1");
                 ok (object_with_id "in_1"); failed "card_declined"] in
  let trace t :=
    map shape (calls (snd (run scripted_MakeRequest toy_Unmarshal t
                             toy_Examples (init script)))) in
  head (trace T_InvoicePaymentFailed) =
    Some ("POST", "/v1/customers", ["source=tok_chargeCustomerFail"]) /\
  tail (trace T_InvoicePaymentFailed) = tail (trace T_InvoicePaymentSucceeded).
Proof.
  destruct (funding_source_tokens scripted_MakeRequest toy_Unmarshal
              toy_Examples
              [ok (object_with_id "cus_1"); ok (object_with_id "ii_1");
               ok (object_with_id "in_1"); failed "card_declined"])
    as (_ & _ & _ & _ & _ & _ & Hhead & Hsame).
  split; [exact Hhead|].
  eapply Hsame.
  simpl. repeat (intros; split; try reflexivity).
Defined.

(** C5 on the scripted service: a time-out gives the zero-valued list, a
    body listing one endpoint gives that endpoint. *)
Lemma WebhookEndpointsList_lenient_witness :
  fst (WebhookEndpointsList scripted_MakeRequest
         toy_Unmarshal_WebhookEndpointList toy_Examples
         (init [failed "timeout"])) = WebhookEndpointList_zero /\
  Data (fst (WebhookEndpointsList scripted_MakeRequest
         toy_Unmarshal_WebhookEndpointList toy_Examples
         (init [ok one_endpoint]))) =
    [{| Application := EmptyString; EnabledEvents := [];
        URL := "https://example.com/hook" |}].
Proof.
  split; [|vm_compute; reflexivity].
  destruct (WebhookEndpointsList_lenient scripted_MakeRequest
              toy_Unmarshal_WebhookEndpointList toy_Examples
              [failed "timeout"]) as (c & Hc & _ & _ & _ & Hzero).
  apply Hzero.
  - intros req apiKey path params errOnStatus w resp e w' H.
    destruct w as [|[b|e'] w'']; simpl in H; congruence.
  - split.
    + intros b d d' msg. unfold toy_Unmarshal_WebhookEndpointList.
      destruct (String.eqb _ EmptyString); [congruence|].
      destruct (String.eqb _ one_endpoint); congruence.
    + intros d. eexists. reflexivity.
  - left. simpl in Hc. injection Hc as <-. simpl. eexists. reflexivity.
Defined.

(** C5 as first worded fails: it promises the zero-valued list for every
    body that does not decode.  Here the service and the decoder keep both
    contracts of the amended statement, the request succeeds, the body is
    well-formed JSON of the wrong type, json.Unmarshal reports a type error,
    and WebhookEndpointsList returns a list of one entry. *)
Lemma WebhookEndpointsList_ill_typed_body :
  let body := list_byte_of_string ill_typed_endpoint in
  let r := WebhookEndpointsList scripted_MakeRequest toy_Unmarshal_ill_typed
             toy_Examples (init [ok ill_typed_endpoint]) in
  failure_has_no_body (@scripted_MakeRequest unit) /\
  malformed_leaves_target toy_Unmarshal_ill_typed /\
  is_Some (snd (toy_Unmarshal_ill_typed body WebhookEndpointList_zero)) /\
  length (Data (fst r)) = 1 /\
  fst r <> WebhookEndpointList_zero.
Proof.
  cbn zeta. split; [|split; [|split; [|split]]].
  - intros req apiKey path params errOnStatus w resp e w' H.
    destruct w as [|[b|e'] w'']; simpl in H; congruence.
  - split.
    + intros b d d' msg.
      unfold toy_Unmarshal_ill_typed, toy_Unmarshal_WebhookEndpointList.
      destruct (String.eqb _ ill_typed_endpoint); [congruence|].
      destruct (String.eqb _ EmptyString); [congruence|].
      destruct (String.eqb _ one_endpoint); congruence.
    + intros d. eexists. reflexivity.
  - vm_compute. eexists. reflexivity.
  - vm_compute. reflexivity.
  - vm_compute. discriminate.
Qed.

(** ** Further runs against the scripted service *)

(** X3 on ChargeRefunded: both requests succeed. *)
Lemma success_means_every_step_witness :
  let r := run scripted_MakeRequest toy_Unmarshal T_ChargeRefunded toy_Examples
             (init [ok (object_with_id "ch_1"); ok (object_with_id "re_1")]) in
  length (calls (snd r)) = 2 /\
  Forall (fun c => step_failure toy_Unmarshal c = None) (calls (snd r)).
Proof.
  apply (success_means_every_step scripted_MakeRequest toy_Unmarshal
           T_ChargeRefunded toy_Examples
           [ok (object_with_id "ch_1"); ok (object_with_id "re_1")]).
  vm_compute. reflexivity.
Defined.

(** X6 on a payment page that comes back without an id. *)
Lemma CheckoutSessionCompleted_checks_ids_witness :
  let r := CheckoutSessionCompleted scripted_MakeRequest toy_Unmarshal
             toy_Examples
             (init [ok (object_with_id "cs_1"); ok empty_object;
                    ok (object_with_id "pm_1"); ok empty_object]) in
  length (calls (snd r)) = 2 /\
  fst r = Some (errors_New "Unable to retrieve PaymentPage ID").
Proof.
  eapply (CheckoutSessionCompleted_checks_ids scripted_MakeRequest
            toy_Unmarshal toy_Examples
            [ok (object_with_id "cs_1"); ok empty_object;
             ok (object_with_id "pm_1"); ok empty_object] 1).
  - vm_compute. reflexivity.
  - vm_compute. reflexivity.
  - lia.
  - vm_compute. reflexivity.
Defined.

(** X7 on a session whose id is null. *)
Lemma CheckoutSessionCompleted_accepts_any_present_id_witness :
  let r := CheckoutSessionCompleted scripted_MakeRequest toy_Unmarshal_null
             toy_Examples
             (init [ok object_with_null_id; ok (object_with_id "pp_1");
                    ok (object_with_id "pm_1"); ok empty_object]) in
  fst r = None /\
  map shape (calls (snd r)) =
    plan T_CheckoutSessionCompleted [VNil; VString "pp_1"; VString "pm_1"] /\
  nth 1 (map shape (calls (snd r))) (EmptyString, EmptyString, []) =
    ("GET", "/v1/payment_pages", ["session_id=%!s(<nil>)"]).
Proof.
  destruct (CheckoutSessionCompleted_accepts_any_present_id
              scripted_MakeRequest toy_Unmarshal_null toy_Examples
              [ok object_with_null_id; ok (object_with_id "pp_1");
               ok (object_with_id "pm_1"); ok empty_object]
              (list_byte_of_string object_with_null_id)
              (list_byte_of_string (object_with_id "pp_1"))
              (list_byte_of_string (object_with_id "pm_1"))
              (list_byte_of_string empty_object)
              {["id" := VNil]} {["id" := VString "pp_1"]}
              {["id" := VString "pm_1"]} ∅
              VNil (VString "pp_1") (VString "pm_1")) as [Hres Htrace].
  - simpl. repeat (intros; split; try reflexivity).
  - vm_compute. reflexivity.
  - vm_compute. reflexivity.
  - vm_compute. reflexivity.
  - vm_compute. reflexivity.
  - vm_compute. reflexivity.
  - vm_compute. reflexivity.
  - vm_compute. reflexivity.
  - split; [exact Hres|]. split; [exact Htrace|].
    rewrite Htrace. reflexivity.
Defined.

(** X8 on InvoiceCreated and InvoiceFinalized, the invoice item failing. *)
Lemma longer_chain_extends_shorter_witness :
  let script := [ok (object_with_id "cus_1"); failed "timeout"] in
  run scripted_MakeRequest toy_Unmarshal T_InvoiceFinalized toy_Examples
    (init script) =
  run scripted_MakeRequest toy_Unmarshal T_InvoiceCreated toy_Examples
    (init script).
Proof.
  refine (proj2 (longer_chain_extends_shorter scripted_MakeRequest
                   toy_Unmarshal T_InvoiceCreated T_InvoiceFinalized
                   toy_Examples
                   [ok (object_with_id "cus_1"); failed "timeout"] _)
            (OtherError "timeout") _).
  - reflexivity.
  - vm_compute. reflexivity.
Defined.

(** X9 on the two subscription chains, the plan creation failing. *)
Lemma subscription_chains_share_setup_witness :
  let script := [ok (object_with_id "cus_1"); failed "timeout"] in
  run scripted_MakeRequest toy_Unmarshal T_CustomerSubscriptionUpdated
    toy_Examples (init script) =
  run scripted_MakeRequest toy_Unmarshal T_CustomerSubscriptionDeleted
    toy_Examples (init script).
Proof.
  apply (subscription_chains_share_setup scripted_MakeRequest toy_Unmarshal
           toy_Examples [ok (object_with_id "cus_1"); failed "timeout"]).
  vm_compute. lia.
Defined.


(** X11 on the event evt_AbC123. *)
Lemma ResendEvent_path_is_clean_witness :
  let c := {| call_req := {| Base_Profile := tt; Method := "POST";
                              SuppressOutput := true;
                              Base_APIBaseURL := "https://api.stripe.com" |};
              call_apiKey := "sk_test_123";
              call_path := "/v1/events/evt_AbC123/retry";
              call_params := {| data := []; version := "2019-03-14" |};
              call_errOnStatus := true;
              call_resp := list_byte_of_string empty_object;
              call_err := None |} in
  call_path c = "/v1/events/" +:+ "evt_AbC123" +:+ "/retry" /\
  forallb path_char (list_ascii_of_string (call_path c)) = true /\
  24 <= String.length (call_path c) <= 276.
Proof.
  apply (ResendEvent_path_is_clean scripted_MakeRequest toy_Unmarshal
           toy_Examples "evt_AbC123" [ok empty_object]).
  vm_compute. left. reflexivity.
Defined.


(** X13 on CustomerUpdated, under a decoder that adds a member to every
    object. *)
Lemma only_id_is_read_witness :
  let script := [ok (object_with_id "cus_1"); ok (object_with_id "cus_1")] in
  run scripted_MakeRequest toy_Unmarshal T_CustomerUpdated toy_Examples
    (init script) =
  run scripted_MakeRequest toy_Unmarshal_with_object T_CustomerUpdated
    toy_Examples (init script).
Proof.
  apply (only_id_is_read scripted_MakeRequest toy_Unmarshal
           toy_Unmarshal_with_object).
  intros b. unfold toy_Unmarshal_with_object. simpl. split; [reflexivity|].
  intros _. symmetry. apply lookup_insert_ne. discriminate.
Defined.

(** ** Examples *)

Example resend_well_formed :
  let r := ResendEvent scripted_MakeRequest toy_Unmarshal toy_Examples
             "evt_AbC123" (init [ok empty_object]) in
  fst r = None /\
  map shape (calls (snd r)) = [("POST", "/v1/events/evt_AbC123/retry", [])].
Proof. vm_compute. split; reflexivity. Qed.

Example resend_bad_id :
  let r := ResendEvent scripted_MakeRequest toy_Unmarshal toy_Examples
             "bad-id" (init [ok empty_object]) in
  fst r = Some (ErrorString
    "Invalid event-id provided, should be of the form '^evt_[A-Za-z0-9]{3,255}$'") /\
  calls (snd r) = [].
Proof. vm_compute. split; reflexivity. Qed.

Example event_ids :
  map event_id_well_formed
    ["evt_AbC123"; "bad-id"; "evt_ab"; "evt_abc"; "xevt_abc"; "evt_ab_c";
     "evt_abc" +:+ String "010" EmptyString] =
  [true; false; false; true; false; false; false].
Proof. reflexivity. Qed.

Example plan_CustomerDeleted_without_id :
  plan T_CustomerDeleted [VNil; VNil] =
  [("POST", "/v1/customers", []); ("DELETE", "/v1/customers/%!s(<nil>)", [])].
Proof. reflexivity. Qed.

Example plan_InvoiceCreated_without_id :
  plan T_InvoiceCreated [VNil; VNil; VNil] =
  [("POST", "/v1/customers", []);
   ("POST", "/v1/invoiceitems",
    ["currency=usd"; "customer=%!s(<nil>)"; "amount=2000"]);
   ("POST", "/v1/invoices", ["customer=%!s(<nil>)"])].
Proof. reflexivity. Qed.

Example checkout_without_session_id :
  let r := CheckoutSessionCompleted scripted_MakeRequest toy_Unmarshal
             toy_Examples (init [ok empty_object; ok empty_object]) in
  fst r = Some (ErrorString "Unable to retrieve CheckoutSession ID") /\
  map call_path (calls (snd r)) = ["/v1/checkout/sessions"].
Proof. vm_compute. split; reflexivity. Qed.
